(** * Shallow embedding of the TreeFrog epoll reactor and WebSocket worker

    Sources: src/src/tepoll.cpp (TEpoll) and src/src/twebsocketworker.cpp
    (TWebSocketWorker::run).

    Modelling conventions:
    - a connection UUID (QByteArray) is an opaque [N];
    - an object address (TEpollSocket* ) is an [N], address [0] being the
      null pointer; live objects are kept in a heap [gmap N TEpollSocket];
    - the kernel epoll interest list is a [gmap Z (Z * N)] from descriptor
      to (event mask, data.ptr);
    - send buffers and frame payloads are [string]s. *)

From Stdlib Require Import ZArith NArith String List.
From stdpp Require Import base gmap list sorting.

Import ListNotations.
Open Scope Z_scope.

(* ------------------------------------------------------------------ *)
(** ** Constants of <sys/epoll.h> and <errno.h> (Linux values) *)

Module Sys.
Definition EPOLLIN : Z := 1.
Definition EPOLLOUT : Z := 4.
Definition EPOLLET : Z := Z.shiftl 1 31.

Definition EPOLL_CTL_ADD : Z := 1.
Definition EPOLL_CTL_DEL : Z := 2.
Definition EPOLL_CTL_MOD : Z := 3.

Definition ENOENT : Z := 2.
Definition EBADF : Z := 9.
Definition EFAULT : Z := 14.
Definition EEXIST : Z := 17.

Definition MaxEvents : Z := 128.
End Sys.
Import Sys.

(* ------------------------------------------------------------------ *)
(** ** Data model *)

Definition Buffer := string.

(** THttpRequestHeader, reduced to what the reactor reads of it: raw header
    fields and cookies (name/value pairs). *)
Record THttpRequestHeader := mkHeader {
  rawHeaders : list (string * string);
  cookies : list (string * string)
}.

Fixpoint assoc_value (k : string) (l : list (string * string)) : string :=
  match l with
  | [] => EmptyString
  | (k', v) :: l' => if String.eqb k k' then v else assoc_value k l'
  end.

Definition rawHeader (h : THttpRequestHeader) (k : string) : string :=
  assoc_value k (rawHeaders h).

Definition cookie (h : THttpRequestHeader) (k : string) : string :=
  assoc_value k (cookies h).

Definition emptyHeader : THttpRequestHeader := mkHeader [] [].

(** TSession: only its identifier matters here; [TSession()] has an empty
    identifier. *)
Record TSession := mkSession { sessionId : string }.
Definition emptySession : TSession := mkSession EmptyString.

Inductive SocketKind := EpollHttpSocket | EpollWebSocket.

(** A TEpollSocket object. [sendBuf] is the queue filled by
    [enqueueSendData]; [wsHeader] is the request header a TEpollWebSocket
    is constructed with. *)
Record TEpollSocket := mkSocket {
  socketUuid : N;
  socketDescriptor : Z;
  clientAddress : string;
  kind : SocketKind;
  sendBuf : list Buffer;
  wsHeader : THttpRequestHeader
}.

(** enum TSendData::Method *)
Inductive Method := Disconnect | Send | SwitchToWebSocket.

(** class TSendData; [buffer] is [None] for the null TSendBuffer* . *)
Record TSendData := mkSendData {
  method : Method;
  uuid : N;
  buffer : option Buffer;
  header : THttpRequestHeader
}.

Definition sendDataSend (u : N) (b : Buffer) : TSendData :=
  mkSendData Send u (Some b) emptyHeader.
Definition sendDataDisconnect (u : N) : TSendData :=
  mkSendData Disconnect u None emptyHeader.
Definition sendDataSwitch (u : N) (h : THttpRequestHeader) : TSendData :=
  mkSendData SwitchToWebSocket u None h.

(** Observable side effects of the reactor on sockets, in program order. *)
Inductive Event :=
| EvEnqueueSendData (p : N) (b : Buffer)
| EvClose (fd : Z)
| EvDeleteLater (p : N)
| EvStartWorkerForOpening (p : N) (s : TSession).

Inductive LogEntry :=
| SystemError (msg : string)
| SystemDebug (msg : string).

Definition isError (e : LogEntry) : bool :=
  match e with SystemError _ => true | SystemDebug _ => false end.

(** The TEpoll object together with the part of the process it acts on.
    [applied] is a ghost record of the TSendData entries that reached the
    [switch] of [dispatchSendData], in order. *)
Record TEpoll := mkEpoll {
  heap : gmap N TEpollSocket;
  pollingSockets : gmap N N;
  interest : gmap Z (Z * N);
  nextPtr : N;
  nextUuid : N;
  trace : list Event;
  syslog : list LogEntry;
  applied : list TSendData
}.

Definition set_heap (h : gmap N TEpollSocket) (st : TEpoll) : TEpoll :=
  mkEpoll h (pollingSockets st) (interest st) (nextPtr st) (nextUuid st)
    (trace st) (syslog st) (applied st).
Definition set_pollingSockets (m : gmap N N) (st : TEpoll) : TEpoll :=
  mkEpoll (heap st) m (interest st) (nextPtr st) (nextUuid st)
    (trace st) (syslog st) (applied st).
Definition set_interest (ie : gmap Z (Z * N)) (st : TEpoll) : TEpoll :=
  mkEpoll (heap st) (pollingSockets st) ie (nextPtr st) (nextUuid st)
    (trace st) (syslog st) (applied st).
Definition emit (e : Event) (st : TEpoll) : TEpoll :=
  mkEpoll (heap st) (pollingSockets st) (interest st) (nextPtr st) (nextUuid st)
    (trace st ++ [e]) (syslog st) (applied st).
Definition log (l : LogEntry) (st : TEpoll) : TEpoll :=
  mkEpoll (heap st) (pollingSockets st) (interest st) (nextPtr st) (nextUuid st)
    (trace st) (syslog st ++ [l]) (applied st).
Definition record_applied (sd : TSendData) (st : TEpoll) : TEpoll :=
  mkEpoll (heap st) (pollingSockets st) (interest st) (nextPtr st) (nextUuid st)
    (trace st) (syslog st) (applied st ++ [sd]).

(* ------------------------------------------------------------------ *)
(** ** The kernel side: tf_epoll_ctl *)

(** epoll_ctl(2) on an interest list: returns (ret, errno, new list). *)
Definition tf_epoll_ctl (ie : gmap Z (Z * N)) (op fd : Z) (ev : option (Z * N))
  : Z * Z * gmap Z (Z * N) :=
  if fd <? 0 then (-1, EBADF, ie)
  else if op =? EPOLL_CTL_ADD then
    match ie !! fd, ev with
    | Some _, _ => (-1, EEXIST, ie)
    | None, Some e => (0, 0, <[fd := e]> ie)
    | None, None => (-1, EFAULT, ie)
    end
  else if op =? EPOLL_CTL_MOD then
    match ie !! fd, ev with
    | None, _ => (-1, ENOENT, ie)
    | Some _, Some e => (0, 0, <[fd := e]> ie)
    | Some _, None => (-1, EFAULT, ie)
    end
  else
    match ie !! fd with
    | None => (-1, ENOENT, ie)
    | Some _ => (0, 0, delete fd ie)
    end.

(* ------------------------------------------------------------------ *)
(** ** TEpoll::addPoll, modifyPoll, deletePoll *)

(** [socket] is dereferenced through the heap; a dangling or null pointer
    is never passed by the source and yields [false]. *)
Definition addPoll (socket : N) (events : Z) (st : TEpoll) : bool * TEpoll :=
  if events =? 0 then (false, st) else
  match heap st !! socket with
  | None => (false, st)
  | Some s =>
      let '(ret, err, ie) :=
        tf_epoll_ctl (interest st) EPOLL_CTL_ADD (socketDescriptor s) (Some (events, socket)) in
      let st := set_interest ie st in
      if ret <? 0 then
        (ret =? 0,
         if negb (err =? EEXIST)
         then log (SystemError "Failed epoll_ctl (EPOLL_CTL_ADD)") st
         else st)
      else
        (ret =? 0,
         set_pollingSockets (<[socketUuid s := socket]> (pollingSockets st))
           (log (SystemDebug "OK epoll_ctl (EPOLL_CTL_ADD)") st))
  end.

Definition modifyPoll (socket : N) (events : Z) (st : TEpoll) : bool * TEpoll :=
  if events =? 0 then (false, st) else
  match heap st !! socket with
  | None => (false, st)
  | Some s =>
      let '(ret, err, ie) :=
        tf_epoll_ctl (interest st) EPOLL_CTL_MOD (socketDescriptor s) (Some (events, socket)) in
      let st := set_interest ie st in
      if ret <? 0
      then (ret =? 0, log (SystemError "Failed epoll_ctl (EPOLL_CTL_MOD)") st)
      else (ret =? 0, log (SystemDebug "OK epoll_ctl (EPOLL_CTL_MOD)") st)
  end.

Definition deletePoll (socket : N) (st : TEpoll) : bool * TEpoll :=
  match heap st !! socket with
  | None => (false, st)
  | Some s =>
      (* pollingSockets.remove(uuid) == 0 *)
      match pollingSockets st !! socketUuid s with
      | None => (false, st)
      | Some _ =>
          let st := set_pollingSockets (delete (socketUuid s) (pollingSockets st)) st in
          let '(ret, err, ie) :=
            tf_epoll_ctl (interest st) EPOLL_CTL_DEL (socketDescriptor s) None in
          let st := set_interest ie st in
          (ret =? 0,
           if (ret <? 0) && negb (err =? ENOENT)
           then log (SystemError "Failed epoll_ctl (EPOLL_CTL_DEL)") st
           else log (SystemDebug "OK epoll_ctl (EPOLL_CTL_DEL)") st)
      end
  end.

(* ------------------------------------------------------------------ *)
(** ** TEpollSocket / TEpollWebSocket members used by the reactor *)

(** Modelled from the spec: TEpollSocket::enqueueSendData (tepollsocket.cpp,
    not in src) appends the buffer to the connection's outgoing queue. *)
Definition enqueueSendData (p : N) (b : option Buffer) (st : TEpoll) : TEpoll :=
  match heap st !! p, b with
  | Some s, Some buf =>
      emit (EvEnqueueSendData p buf)
        (set_heap (<[p := mkSocket (socketUuid s) (socketDescriptor s) (clientAddress s)
                           (kind s) (sendBuf s ++ [buf]) (wsHeader s)]> (heap st)) st)
  | _, _ => st
  end.

(** Modelled from the spec: TEpollSocket::close (not in src) closes the
    descriptor. *)
Definition close (p : N) (st : TEpoll) : TEpoll :=
  match heap st !! p with
  | Some s => emit (EvClose (socketDescriptor s)) st
  | None => st
  end.

(** QObject::deleteLater: destruction is deferred to the next loop turn. *)
Definition deleteLater (p : N) (st : TEpoll) : TEpoll := emit (EvDeleteLater p) st.

(** TEpollSocket::setSocketDescpriter (sic). *)
Definition setSocketDescpriter (p : N) (fd : Z) (st : TEpoll) : TEpoll :=
  match heap st !! p with
  | Some s =>
      set_heap (<[p := mkSocket (socketUuid s) fd (clientAddress s)
                         (kind s) (sendBuf s) (wsHeader s)]> (heap st)) st
  | None => st
  end.

(** Modelled from the spec: [new TEpollWebSocket(sd, address, header)]
    (tepollwebsocket.cpp, not in src) allocates a WebSocket-mode connection
    on the given descriptor with a freshly issued UUID. Returns its address. *)
Definition newTEpollWebSocket (fd : Z) (addr : string) (h : THttpRequestHeader)
    (st : TEpoll) : N * TEpoll :=
  let p := nextPtr st in
  let ws := mkSocket (nextUuid st) fd addr EpollWebSocket [] h in
  (p, mkEpoll (<[p := ws]> (heap st)) (pollingSockets st) (interest st)
        (N.succ (nextPtr st)) (N.succ (nextUuid st))
        (trace st) (syslog st) (applied st)).

(** Modelled from the spec: TEpollWebSocket::startWorkerForOpening (not in
    src) delivers the opening lifecycle event, with the session, to a new
    Frame Worker. *)
Definition startWorkerForOpening (p : N) (s : TSession) (st : TEpoll) : TEpoll :=
  emit (EvStartWorkerForOpening p s) st.

(** [pollingSockets[uuid]] on a non-const QMap: a missing key is inserted
    with a default-constructed (null) value. *)
Definition subscript (u : N) (st : TEpoll) : N * TEpoll :=
  match pollingSockets st !! u with
  | Some p => (p, st)
  | None => (0%N, set_pollingSockets (<[u := 0%N]> (pollingSockets st)) st)
  end.

(* ------------------------------------------------------------------ *)
(** ** The send queue *)

(** Modelled from the spec: TQueue<TSendData*> (tqueue.h, not in src) is a
    FIFO: [enqueue] appends at the tail, [dequeue] removes and returns every
    queued entry in enqueue order. *)
Definition TQueue := list TSendData.
Definition enqueue (q : TQueue) (sd : TSendData) : TQueue := q ++ [sd].
Definition dequeue (q : TQueue) : list TSendData * TQueue := (q, []).

(* ------------------------------------------------------------------ *)
(** ** TEpoll::dispatchSendData *)

Section Dispatch.

(** External collaborators: the session name of the cookie
    (TSession::sessionName), the session store lookup
    (TSessionManager::findSession) and the handshake response of a
    TEpollWebSocket (its [handshakeResponse().toByteArray()]). *)
Variable sessionName : string.
Variable findSession : string -> TSession.
Variable handshakeResponse : THttpRequestHeader -> Buffer.

Definition EV_RESET : Z := Z.lor (Z.lor EPOLLIN EPOLLOUT) EPOLLET.

Definition switchToWebSocket (sd : TSendData) (sock : N) (s : TEpollSocket)
    (st : TEpoll) : TEpoll :=
  let st := log (SystemDebug "Switch to WebSocket") st in
  let secKey := rawHeader (header sd) "Sec-WebSocket-Key" in
  let st := log (SystemDebug ("secKey: " ++ secKey)) st in
  let '(ws, st) := newTEpollWebSocket (socketDescriptor s) (clientAddress s) (header sd) st in
  let st := snd (deletePoll sock st) in
  let st := setSocketDescpriter sock 0 st in   (* Delegates to new websocket *)
  let st := deleteLater sock st in
  let st := enqueueSendData ws (Some (handshakeResponse (header sd))) st in
  let st := snd (addPoll ws EV_RESET st) in
  let sid := cookie (header sd) sessionName in
  let session := if String.eqb sid EmptyString then emptySession else findSession sid in
  startWorkerForOpening ws session st.

(** One iteration of the loop over the dequeued list. *)
Definition dispatchOne (st : TEpoll) (sd : TSendData) : TEpoll :=
  let '(sock, st) := subscript (uuid sd) st in
  if (sock =? 0)%N then st else
  match heap st !! sock with
  | None => st
  | Some s =>
      if 0 <? socketDescriptor s then
        let st := record_applied sd st in
        match method sd with
        | Send =>
            let st := enqueueSendData sock (buffer sd) st in
            snd (modifyPoll sock EV_RESET st)
        | Disconnect =>
            let st := snd (deletePoll sock st) in
            let st := close sock st in
            deleteLater sock st
        | SwitchToWebSocket => switchToWebSocket sd sock s st
        end
      else st
  end.

Definition dispatchSendData (st : TEpoll) (q : TQueue) : TEpoll * TQueue :=
  let '(dataList, q) := dequeue q in
  (fold_left dispatchOne dataList st, q).

End Dispatch.

(* ------------------------------------------------------------------ *)
(** ** TEpoll::wait, next, canReceive, canSend *)

(** The event array [events] ([new epoll_event[MaxEvents]]) as a list of
    (event mask, data.ptr) slots, with the two cursors of TEpoll. *)
Record EventCursor := mkCursor {
  events : list (Z * N);
  numEvents : Z;
  eventIterator : Z
}.

(** [events[i]]: [None] is an access outside the MaxEvents slots. *)
Definition event_at (evs : list (Z * N)) (i : Z) : option (Z * N) :=
  if (0 <=? i) && (i <? MaxEvents) then nth_error evs (Z.to_nat i) else None.

(** [wait]: [ret] is what tf_epoll_wait returned and [filled] the array it
    filled in. *)
Definition wait (ret : Z) (filled : list (Z * N)) (c : EventCursor) : EventCursor :=
  mkCursor filled ret 0.

Definition next (c : EventCursor) : option N * EventCursor :=
  if eventIterator c <? numEvents c then
    (option_map snd (event_at (events c) (eventIterator c)),
     mkCursor (events c) (numEvents c) (eventIterator c + 1))
  else (None, c).

(** [None]: the array was read outside its bounds. *)
Definition canReceive (c : EventCursor) : option bool :=
  if eventIterator c <=? 0 then Some false
  else option_map (fun e => negb (Z.land (fst e) EPOLLIN =? 0))
         (event_at (events c) (eventIterator c - 1)).

Definition canSend (c : EventCursor) : option bool :=
  if eventIterator c <=? 0 then Some false
  else option_map (fun e => negb (Z.land (fst e) EPOLLOUT =? 0))
         (event_at (events c) (eventIterator c - 1)).

(* ------------------------------------------------------------------ *)
(** ** TWebSocketWorker::run *)

(** enum TWebSocketFrame::OpCode (RFC 6455 values) *)
Module OpCode.
Definition Continuation : Z := 0.
Definition TextFrame : Z := 1.
Definition BinaryFrame : Z := 2.
Definition Close : Z := 8.
Definition Ping : Z := 9.
Definition Pong : Z := 10.
End OpCode.

(** The QVariant entries of [payloadList], by [var.type()]. *)
Inductive QVariant :=
| VString (s : string)
| VByteArray (b : string)
| VInt (n : Z)
| VOther.

(** The endpoint callback that was invoked, with its argument. *)
Inductive Callback :=
| CbOpen (s : TSession)
| CbTextReceived (s : string)
| CbBinaryReceived (b : string)
| CbClose
| CbPing
| CbPong.

(** tError / tWarn of the application log. *)
Inductive AppLog :=
| AppError (msg : string)
| AppWarn (msg : string).

(** A TWebSocketEndpoint, by what each callback appends to its
    [payloadList]. *)
Record TWebSocketEndpoint := mkEndpoint {
  onOpen : TSession -> list QVariant;
  onTextReceived : string -> list QVariant;
  onBinaryReceived : string -> list QVariant;
  onClose : list QVariant;
  onPing : list QVariant;
  onPong : list QVariant
}.

(** Modelled from the spec: TWebSocketEndpoint::closeWebSocket and
    TWebSocketEndpoint::sendPong (twebsocketendpoint.cpp, not in src) append
    the close and send-pong directives to [payloadList]. *)
Definition closeWebSocket : list QVariant := [VInt OpCode.Close].
Definition sendPong : list QVariant := [VInt OpCode.Pong].

Record TWebSocketWorker := mkWorker {
  socketUuid_w : N;
  sessionStore : TSession;
  requestPath : string;
  opcode : Z;
  requestData : string
}.

(** The two constructors. *)
Definition openingWorker (socket : N) (session : TSession) : TWebSocketWorker :=
  mkWorker socket session EmptyString OpCode.Continuation EmptyString.
Definition frameWorker (socket : N) (path : string) (op : Z) (data : string)
  : TWebSocketWorker :=
  mkWorker socket emptySession path op data.

(** The result of one run: callbacks invoked, application log, and the
    TSendData entries it enqueued, in order. *)
Record RunResult := mkRun {
  invoked : list Callback;
  applog : list AppLog;
  enqueued : list TSendData
}.

Section Worker.

(** External collaborators: the endpoint found by TDispatcher for the
    request path ([TUrlRoute::splitPath] and [TDispatcher::object]), and the
    serialisation of a frame of a given opcode and payload. *)
Variable endpointOf : string -> option TWebSocketEndpoint.
Variable frame : Z -> string -> Buffer.

(** Modelled from the spec: TEpollWebSocket::sendText, sendBinary,
    sendPing, sendPong and disconnect (tepollwebsocket.cpp, not in src)
    enqueue a Send of the corresponding frame, or a Disconnect. *)
Definition sendText (u : N) (s : string) : TSendData := sendDataSend u (frame OpCode.TextFrame s).
Definition sendBinary (u : N) (b : string) : TSendData := sendDataSend u (frame OpCode.BinaryFrame b).
Definition sendPingTo (u : N) : TSendData := sendDataSend u (frame OpCode.Ping EmptyString).
Definition sendPongTo (u : N) : TSendData := sendDataSend u (frame OpCode.Pong EmptyString).
Definition disconnectWs (u : N) : TSendData := sendDataDisconnect u.

(** The body of the "Sends payload" loop for one entry. *)
Definition sendPayloadEntry (u : N) (var : QVariant) : list AppLog * list TSendData :=
  match var with
  | VString s => ([], [sendText u s])
  | VByteArray b => ([], [sendBinary u b])
  | VInt op =>
      if op =? OpCode.Close then ([], [disconnectWs u])
      else if op =? OpCode.Ping then ([], [sendPingTo u])
      else if op =? OpCode.Pong then ([], [sendPongTo u])
      else ([AppError "Invalid logic"], [])
  | VOther => ([AppError "Invalid logic"], [])
  end.

Fixpoint sendPayload (u : N) (l : list QVariant) : list AppLog * list TSendData :=
  match l with
  | [] => ([], [])
  | var :: l' =>
      let '(lg, q) := sendPayloadEntry u var in
      let '(lg', q') := sendPayload u l' in
      (lg ++ lg', q ++ q')
  end.

(** The [switch (opcode)]: callbacks invoked, log, and the [payloadList]
    of the fresh endpoint afterwards. *)
Definition dispatchOpcode (w : TWebSocketWorker) (ep : TWebSocketEndpoint)
  : list Callback * list AppLog * list QVariant :=
  let op := opcode w in
  if op =? OpCode.Continuation then
    if String.eqb (sessionId (sessionStore w)) EmptyString
    then ([CbOpen (sessionStore w)], [], onOpen ep (sessionStore w))
    else ([], [AppError "Invalid logic"], [])
  else if op =? OpCode.TextFrame then
    ([CbTextReceived (requestData w)], [], onTextReceived ep (requestData w))
  else if op =? OpCode.BinaryFrame then
    ([CbBinaryReceived (requestData w)], [], onBinaryReceived ep (requestData w))
  else if op =? OpCode.Close then
    ([CbClose], [], onClose ep ++ closeWebSocket)
  else if op =? OpCode.Ping then
    ([CbPing], [], onPing ep ++ sendPong)
  else if op =? OpCode.Pong then
    ([CbPong], [], onPong ep)
  else ([], [AppWarn "Invalid opcode"], []).

Definition run (w : TWebSocketWorker) : RunResult :=
  match endpointOf (requestPath w) with
  | None => mkRun [] [] []
  | Some ep =>
      let '(cbs, lg, payloadList) := dispatchOpcode w ep in
      let '(lg', q) := sendPayload (socketUuid_w w) payloadList in
      mkRun cbs (lg ++ lg') q
  end.

End Worker.

(* ------------------------------------------------------------------ *)
(** ** The session handed to the opening worker (the tail of the
    SwitchToWebSocket case) *)

Definition openingSession (sn : string) (fs : string -> TSession) (h : THttpRequestHeader)
  : TSession :=
  if String.eqb (cookie h sn) EmptyString then emptySession else fs (cookie h sn).

(* ------------------------------------------------------------------ *)
(** ** A sample reactor state: one HTTP connection, UUID 7, descriptor 5,
    at address 1. *)

Definition httpSock : TEpollSocket :=
  mkSocket 7 5 "127.0.0.1" EpollHttpSocket [] emptyHeader.

Definition st0 : TEpoll :=
  mkEpoll (<[1%N := httpSock]> ∅) (<[7%N := 1%N]> ∅) (<[5 := (EV_RESET, 1%N)]> ∅)
    2 100 [] [] [].

Definition sampleSessionName : string := "TF_SESSIONID".
Definition sampleFindSession (sid : string) : TSession := mkSession sid.
Definition sampleHandshake (h : THttpRequestHeader) : Buffer :=
  "HTTP/1.1 101 Switching Protocols"%string.

Definition runQueue (st : TEpoll) (xs : list TSendData) : TEpoll :=
  fst (dispatchSendData sampleSessionName sampleFindSession sampleHandshake st
         (fold_left enqueue xs [])).

(** The same connection when its descriptor is still in the epoll interest
    list but its UUID is no longer in [pollingSockets]. *)
Definition stStale : TEpoll :=
  mkEpoll (<[1%N := httpSock]> ∅) ∅ (<[5 := (EV_RESET, 1%N)]> ∅) 2 100 [] [] [].

(** Sample collaborators for the worker: an endpoint that greets on open and
    echoes text, resolved for every path, and a frame serialiser that tags
    the payload with its opcode. *)
Definition echoEndpoint : TWebSocketEndpoint :=
  mkEndpoint (fun _ => [VString "welcome"]) (fun s => [VString s]) (fun b => [VByteArray b])
    [] [] [].
Definition sampleEndpointOf (path : string) : option TWebSocketEndpoint := Some echoEndpoint.
Definition noEndpointOf (path : string) : option TWebSocketEndpoint := None.
Definition sampleFrame (op : Z) (payload : string) : Buffer :=
  String.append (if op =? OpCode.TextFrame then "T:" else "F:") payload.

(** The translation table of the payload loop as the spec words it: a text
    payload becomes a Send of a text frame, a binary payload a Send of a
    binary frame, a close directive a Disconnect, and ping and pong
    directives Sends of the matching control frames. *)
Inductive Directive :=
| DText (s : string)
| DBinary (b : string)
| DClose
| DPing
| DPong.

(** How a directive sits in [payloadList] (QString, QByteArray, or the
    control opcode as an int). *)
Definition toVariant (d : Directive) : QVariant :=
  match d with
  | DText s => VString s
  | DBinary b => VByteArray b
  | DClose => VInt OpCode.Close
  | DPing => VInt OpCode.Ping
  | DPong => VInt OpCode.Pong
  end.

Definition directiveAction (frame : Z -> string -> Buffer) (u : N) (d : Directive)
  : TSendData :=
  match d with
  | DText s => sendDataSend u (frame OpCode.TextFrame s)
  | DBinary b => sendDataSend u (frame OpCode.BinaryFrame b)
  | DClose => sendDataDisconnect u
  | DPing => sendDataSend u (frame OpCode.Ping EmptyString)
  | DPong => sendDataSend u (frame OpCode.Pong EmptyString)
  end.

Definition knownOpcode (op : Z) : bool :=
  (op =? OpCode.Continuation) || (op =? OpCode.TextFrame) || (op =? OpCode.BinaryFrame) ||
  (op =? OpCode.Close) || (op =? OpCode.Ping) || (op =? OpCode.Pong).

(* ------------------------------------------------------------------ *)
(** ** Producers of the send queue: TEpoll::setSendData, setDisconnect,
    setSwitchToWebSocket *)

(** Modelled from the spec: TEpollSocket::createSendBuffer(data)
    (tepollsocket.cpp, not in src) wraps the bytes to send. *)
Definition createSendBuffer (data : string) : Buffer := data.

(** The [setSendData(uuid, data)] overload. *)
Definition setSendData (q : TQueue) (u : N) (data : string) : TQueue :=
  enqueue q (mkSendData Send u (Some (createSendBuffer data)) emptyHeader).
Definition setSwitchToWebSocket (q : TQueue) (u : N) (h : THttpRequestHeader) : TQueue :=
  enqueue q (mkSendData SwitchToWebSocket u None h).

(* ------------------------------------------------------------------ *)
(** ** TEpoll::releaseAllPollingSockets *)

(** A QMap iterates in ascending key order. *)
Definition key_le (a b : N * N) : Prop := (a.1 <= b.1)%N.
#[global] Instance key_le_dec : RelDecision key_le := fun a b => decide (a.1 <= b.1)%N.

Definition qmap_entries (m : gmap N N) : list (N * N) := merge_sort key_le (map_to_list m).

(** [it.value()->deleteLater()] for every entry, then [clear()]. *)
Definition releaseAllPollingSockets (st : TEpoll) : TEpoll :=
  let st := fold_left (fun st kv => deleteLater kv.2 st) (qmap_entries (pollingSockets st)) st in
  set_pollingSockets ∅ st.

(* ------------------------------------------------------------------ *)
(** ** Repeated [next()] *)

Fixpoint nexts (k : nat) (c : EventCursor) : list (option N) * EventCursor :=
  match k with
  | O => ([], c)
  | S k' =>
      let '(x, c) := next c in
      let '(xs, c) := nexts k' c in
      (x :: xs, c)
  end.

(* ------------------------------------------------------------------ *)
(** ** TApplicationServerBase::loadLibraries (src/src/tapplicationserverbase.cpp) *)

(** What the function reads from its surroundings: [Tf::app()->libPath()],
    [webRootPath()], whether the lib directory exists, whether
    [QLibrary::load] succeeds for a name and its [errorString()], and
    [TActionController::availableControllers()]. *)
Record AppEnv := mkAppEnv {
  libPath : string;
  webRootPath : string;
  libDirExists : bool;
  libLoads : string -> bool;
  libErrorString : string -> string;
  availableControllers : list string
}.

(** The static [libLoaded], the working directory ([QDir::setCurrent]), the
    system log, the libraries whose load was attempted and the singletons
    instantiated, in order. *)
Record AppState := mkAppState {
  libLoaded : bool;
  currentDir : string;
  appSyslog : list LogEntry;
  loadAttempts : list string;
  instantiated : list string
}.

Definition app_log (l : LogEntry) (a : AppState) : AppState :=
  mkAppState (libLoaded a) (currentDir a) (appSyslog a ++ [l]) (loadAttempts a) (instantiated a).
Definition app_setCurrent (d : string) (a : AppState) : AppState :=
  mkAppState (libLoaded a) d (appSyslog a) (loadAttempts a) (instantiated a).
Definition app_attempt (lib : string) (a : AppState) : AppState :=
  mkAppState (libLoaded a) (currentDir a) (appSyslog a) (loadAttempts a ++ [lib]) (instantiated a).
Definition app_setLoaded (a : AppState) : AppState :=
  mkAppState true (currentDir a) (appSyslog a) (loadAttempts a) (instantiated a).
Definition app_instantiate (name : string) (a : AppState) : AppState :=
  mkAppState (libLoaded a) (currentDir a) (appSyslog a) (loadAttempts a) (instantiated a ++ [name]).

(** The Q_OS_LINUX list (the epoll reactor is Linux only). *)
Definition libs : list string := ["libcontroller.so"%string; "libview.so"%string].

Fixpoint joinSpace (l : list string) : string :=
  match l with
  | [] => EmptyString
  | [x] => x
  | x :: l' => String.append x (String.append " " (joinSpace l'))
  end.

Definition loadOne (env : AppEnv) (a : AppState) (lib : string) : AppState :=
  let a := app_attempt lib a in
  if libLoads env lib
  then app_log (SystemDebug (String.append "Library loaded: " lib)) (app_setLoaded a)
  else app_log (SystemError (libErrorString env lib)) a.

Definition loadLibraries (env : AppEnv) (a : AppState) : bool * AppState :=
  let r :=
    if libLoaded a then Some a
    else if libDirExists env then
      let a := app_setCurrent (libPath env) a in
      let a := fold_left (loadOne env) libs a in
      Some (app_log (SystemDebug (String.append "Available controllers: "
                                   (joinSpace (availableControllers env)))) a)
    else None in
  match r with
  | None => (false, app_log (SystemError "lib directory not found") a)
  | Some a =>
      let a := app_setCurrent (webRootPath env) a in
      let a := app_instantiate "TUrlRoute" a in
      let a := app_instantiate "TSqlDatabasePool" a in
      let a := app_instantiate "TKvsDatabasePool" a in
      (true, a)
  end.

(** An endpoint whose text callback emits every kind of directive, a close
    among them, and the resolver that finds it for every path. *)
Definition scriptedDirectives : list Directive :=
  [DText "a"; DBinary "b"; DClose; DPing; DPong]%string.
Definition scriptedEndpoint : TWebSocketEndpoint :=
  mkEndpoint (fun _ => []) (fun _ => map toVariant scriptedDirectives) (fun _ => []) [] [] [].
Definition scriptedEndpointOf (path : string) : option TWebSocketEndpoint :=
  Some scriptedEndpoint.

(* ------------------------------------------------------------------ *)
(** ** Liveness of a registered connection *)

(** The connection of UUID [u] is registered at a non-null address [p]
    whose object carries [u] and the positive descriptor [fd]. *)
Definition live_at (st : TEpoll) (u p : N) (fd : Z) : Prop :=
  pollingSockets st !! u = Some p /\ p <> 0%N /\
  exists s, heap st !! p = Some s /\ socketUuid s = u /\ socketDescriptor s = fd /\ 0 < fd.

Definition closed_at (st : TEpoll) (u : N) (fd : Z) : Prop :=
  (pollingSockets st !! u = None \/ pollingSockets st !! u = Some 0%N) /\
  EvClose fd ∈ trace st.

(** A sample application environment. *)
Definition sampleEnv (exists_ : bool) (loads : string -> bool) : AppEnv :=
  mkAppEnv "/srv/app/lib" "/srv/app" exists_ loads (fun lib => String.append "cannot load " lib)
    ["blogcontroller"%string].

Definition freshApp : AppState := mkAppState false "/" [] [] [].

(* ================================================================== *)
(** * Properties *)

(* ------------------------------------------------------------------ *)
(** ** Frame lemmas: which fields each reactor step leaves alone *)

Ltac unfold_ops :=
  unfold addPoll, modifyPoll, deletePoll, enqueueSendData, close, deleteLater,
    setSocketDescpriter, newTEpollWebSocket, startWorkerForOpening, subscript,
    set_heap, set_pollingSockets, set_interest, emit, log in *.

Ltac red_proj := cbn [fst snd heap pollingSockets interest nextPtr nextUuid trace syslog applied
  method uuid buffer header socketUuid socketDescriptor clientAddress kind sendBuf wsHeader
  negb andb app sendDataSwitch Z.eqb Z.ltb Z.compare Pos.eqb Pos.compare Pos.compare_cont EPOLL_CTL_DEL EPOLL_CTL_ADD EPOLL_CTL_MOD ENOENT EEXIST] in *.

Ltac red_ctl := cbn [Z.eqb Z.ltb Z.compare Pos.eqb Pos.compare Pos.compare_cont EPOLL_CTL_DEL EPOLL_CTL_ADD EPOLL_CTL_MOD ENOENT EEXIST andb negb heap pollingSockets interest nextPtr nextUuid trace syslog applied].

Ltac frame_tac := unfold_ops; repeat (case_match; simpl in *); simplify_eq; reflexivity.

Lemma addPoll_applied p e st : applied (snd (addPoll p e st)) = applied st.
Proof. frame_tac. Qed.
Lemma modifyPoll_applied p e st : applied (snd (modifyPoll p e st)) = applied st.
Proof. frame_tac. Qed.
Lemma deletePoll_applied p st : applied (snd (deletePoll p st)) = applied st.
Proof. frame_tac. Qed.
Lemma enqueueSendData_applied p b st : applied (enqueueSendData p b st) = applied st.
Proof. frame_tac. Qed.
Lemma setSocketDescpriter_applied p fd st : applied (setSocketDescpriter p fd st) = applied st.
Proof. frame_tac. Qed.
Lemma subscript_applied u st : applied (snd (subscript u st)) = applied st.
Proof. frame_tac. Qed.

Lemma switchToWebSocket_applied sn fs hr sd p s st :
  applied (switchToWebSocket sn fs hr sd p s st) = applied st.
Proof.
  unfold switchToWebSocket.
  destruct (newTEpollWebSocket _ _ _ _) as [ws st1] eqn:Hn.
  unfold startWorkerForOpening, emit; simpl.
  rewrite addPoll_applied, enqueueSendData_applied.
  unfold deleteLater, emit; simpl.
  rewrite setSocketDescpriter_applied, deletePoll_applied.
  unfold newTEpollWebSocket in Hn; simplify_eq; reflexivity.
Qed.

(** One iteration applies the entry, or skips it. *)
Lemma dispatchOne_applied sn fs hr st sd :
  applied (dispatchOne sn fs hr st sd) = applied st \/
  applied (dispatchOne sn fs hr st sd) = applied st ++ [sd].
Proof.
  unfold dispatchOne.
  destruct (subscript (uuid sd) st) as [p st1] eqn:Hs.
  assert (Ha : applied st1 = applied st)
    by (rewrite <- (subscript_applied (uuid sd) st), Hs; reflexivity).
  destruct (p =? 0)%N; [left; exact Ha|].
  destruct (heap st1 !! p) as [s|]; [|left; exact Ha].
  destruct (0 <? socketDescriptor s); [|left; exact Ha].
  right. destruct (method sd).
  - unfold deleteLater, close, emit. case_match; simpl;
      rewrite deletePoll_applied; simpl; rewrite Ha; reflexivity.
  - rewrite modifyPoll_applied, enqueueSendData_applied; simpl; rewrite Ha; reflexivity.
  - rewrite switchToWebSocket_applied; simpl; rewrite Ha; reflexivity.
Qed.

Lemma dispatch_fold_applied sn fs hr l st :
  exists l', applied (fold_left (dispatchOne sn fs hr) l st) = applied st ++ l' /\
             l' `sublist_of` l.
Proof.
  revert st; induction l as [|sd l IH]; intros st; simpl.
  - exists []. split; [by rewrite app_nil_r | constructor].
  - destruct (IH (dispatchOne sn fs hr st sd)) as [l' [Hl' Hsub]].
    destruct (dispatchOne_applied sn fs hr st sd) as [H|H]; rewrite H in Hl'.
    + exists l'. split; [exact Hl'|]. by constructor.
    + exists (sd :: l'). split; [by rewrite Hl', <- app_assoc|]. by constructor.
Qed.

Lemma sublist_filter_mono {A} (P : A -> Prop) `{!forall x, Decision (P x)} l1 l2 :
  l1 `sublist_of` l2 -> filter P l1 `sublist_of` filter P l2.
Proof.
  induction 1 as [|x l1 l2 _ IH|x l1 l2 _ IH]; [constructor| |];
    rewrite ?filter_cons; case_decide; try constructor; done.
Qed.

Lemma enqueue_all_order (xs : list TSendData) : fold_left enqueue xs [] = xs.
Proof.
  assert (H : forall q, fold_left enqueue xs q = q ++ xs).
  { induction xs as [|x xs IH]; intros q; simpl; [by rewrite app_nil_r|].
    rewrite IH. unfold enqueue. by rewrite <- app_assoc. }
  apply H.
Qed.

(** Send, Send, Disconnect on one connection: bytes, then bytes, then close. *)
Lemma send_send_disconnect_in_order :
  trace (runQueue st0 [sendDataSend 7 "a"%string; sendDataSend 7 "b"%string; sendDataDisconnect 7])
  = [EvEnqueueSendData 1 "a"%string; EvEnqueueSendData 1 "b"%string; EvClose 5; EvDeleteLater 1].
Proof. vm_compute. reflexivity. Qed.

(** ** C1 *)

(** C1: the reactor applies the queued actions of one UUID in their
    enqueue order. Draining a queue filled by [enqueue] with [xs], the
    entries that reach the [switch] of [dispatchSendData] (the ghost record
    [applied]) are appended in the order of [xs]; restricted to any UUID [u]
    they form an order-preserving subsequence of the entries enqueued for
    [u], none applied twice or reordered. *)
Theorem dispatchSendData_uuid_order sn fs hr st (xs : list TSendData) (u : N) :
  exists l',
    applied (fst (dispatchSendData sn fs hr st (fold_left enqueue xs []))) = applied st ++ l' /\
    l' `sublist_of` xs /\
    filter (fun sd => uuid sd = u) l' `sublist_of` filter (fun sd => uuid sd = u) xs.
Proof.
  rewrite enqueue_all_order. unfold dispatchSendData, dequeue; simpl.
  destruct (dispatch_fold_applied sn fs hr xs st) as [l' [H Hs]].
  exists l'. split; [exact H|]. split; [exact Hs|].
  by apply sublist_filter_mono.
Qed.

(** ** C2 *)

(** C2: applying a Send whose UUID is not in the registry does nothing
    observable: no buffer appended, no epoll_ctl, no event, no log entry,
    and it is not counted as applied. The only trace it leaves is the null
    entry that [pollingSockets[uuid]] inserts into the QMap. *)
Theorem dispatchOne_send_unknown_noop sn fs hr st sd :
  method sd = Send ->
  pollingSockets st !! uuid sd = None ->
  let st' := dispatchOne sn fs hr st sd in
  heap st' = heap st /\ interest st' = interest st /\ trace st' = trace st /\
  syslog st' = syslog st /\ applied st' = applied st /\
  pollingSockets st' = <[uuid sd := 0%N]> (pollingSockets st).
Proof.
  intros _ Hnone. unfold dispatchOne, subscript. rewrite Hnone. simpl.
  repeat split; reflexivity.
Qed.

Lemma dispatchOne_send_unknown_noop_witness :
  method (sendDataSend 8 "x"%string) = Send /\
  pollingSockets st0 !! uuid (sendDataSend 8 "x"%string) = None /\
  trace (dispatchOne sampleSessionName sampleFindSession sampleHandshake st0
           (sendDataSend 8 "x"%string)) = trace st0.
Proof.
  split; [reflexivity|]. split; [vm_compute; reflexivity|].
  apply (dispatchOne_send_unknown_noop sampleSessionName sampleFindSession sampleHandshake
           st0 (sendDataSend 8 "x"%string)); [reflexivity | vm_compute; reflexivity].
Defined.

(** A Send enqueued after a Disconnect of the same UUID is dropped. *)
Lemma send_after_disconnect_dropped :
  trace (runQueue st0 [sendDataDisconnect 7; sendDataSend 7 "late"%string])
  = [EvClose 5; EvDeleteLater 1] /\
  syslog (runQueue st0 [sendDataDisconnect 7; sendDataSend 7 "late"%string])
  = [SystemDebug "OK epoll_ctl (EPOLL_CTL_DEL)"].
Proof. vm_compute. split; reflexivity. Qed.


(** ** C3 *)

(** C3: upgrading a registered HTTP connection [p] (UUID [u], descriptor
    [D]) creates a WebSocket-mode connection at the fresh address [ws] on
    the same descriptor [D], registered in the QMap under its new UUID and in
    epoll for [D]; the old connection is unregistered, its descriptor field
    handed over (set to 0) and it is scheduled for deletion, no descriptor is
    closed, and the one handshake response is the only data queued on the
    new connection. *)
Theorem switchToWebSocket_keeps_descriptor sn fs hr st u p s h ev :
  pollingSockets st !! u = Some p -> p <> 0%N ->
  heap st !! p = Some s -> socketUuid s = u -> 0 < socketDescriptor s ->
  kind s = EpollHttpSocket ->
  interest st !! socketDescriptor s = Some ev ->
  heap st !! nextPtr st = None -> nextUuid st <> u ->
  let st' := dispatchOne sn fs hr st (sendDataSwitch u h) in
  let ws := nextPtr st in
  heap st' !! ws =
    Some (mkSocket (nextUuid st) (socketDescriptor s) (clientAddress s) EpollWebSocket
            [hr h] h) /\
  pollingSockets st' !! nextUuid st = Some ws /\
  pollingSockets st' !! u = None /\
  interest st' !! socketDescriptor s = Some (EV_RESET, ws) /\
  heap st' !! p =
    Some (mkSocket u 0 (clientAddress s) (kind s) (sendBuf s) (wsHeader s)) /\
  trace st' = trace st ++ [EvDeleteLater p; EvEnqueueSendData ws (hr h);
                           EvStartWorkerForOpening ws (openingSession sn fs h)].
Proof.
  intros Hp Hp0 Hs Hu Hfd Hk Hie Hfresh Hnu.
  assert (Hne : nextPtr st <> p) by (intros E; rewrite E in Hfresh; congruence).
  assert (Hlt : (0 <? socketDescriptor s) = true) by (apply Z.ltb_lt; lia).
  assert (Hneg : (socketDescriptor s <? 0) = false) by (apply Z.ltb_ge; lia).
  unfold dispatchOne, subscript. red_proj. rewrite Hp.
  replace ((p =? 0)%N) with false by (symmetry; apply N.eqb_neq; exact Hp0).
  rewrite Hs, Hlt. unfold record_applied. red_proj.
  unfold switchToWebSocket. unfold log, newTEpollWebSocket. red_proj.
  unfold deletePoll. red_proj.
  rewrite lookup_insert_ne by congruence. rewrite Hs, Hu, Hp.
  unfold set_pollingSockets, tf_epoll_ctl. red_proj. rewrite Hneg. red_ctl. rewrite Hie.
  unfold set_interest, log. red_proj.
  unfold setSocketDescpriter. red_proj.
  rewrite lookup_insert_ne by congruence. rewrite Hs.
  unfold set_heap, deleteLater, emit, enqueueSendData. red_proj.
  rewrite lookup_insert_ne by congruence. rewrite lookup_insert_eq.
  unfold set_heap, emit. red_proj.
  unfold addPoll. replace (EV_RESET =? 0) with false by reflexivity. red_proj. rewrite lookup_insert_eq. red_proj.
  unfold tf_epoll_ctl. rewrite Hneg. red_ctl. rewrite lookup_delete_eq.
  unfold set_interest, log, set_pollingSockets, startWorkerForOpening, emit. red_proj.
  rewrite Hu. fold (openingSession sn fs h).
  repeat split.
  - rewrite lookup_insert_eq. reflexivity.
  - rewrite lookup_insert_eq. reflexivity.
  - rewrite lookup_insert_ne by congruence. rewrite lookup_delete_eq. reflexivity.
  - rewrite lookup_insert_eq. reflexivity.
  - rewrite lookup_insert_ne by congruence. rewrite lookup_insert_eq. reflexivity.
  - rewrite <- !app_assoc. reflexivity.
Qed.

Definition upgradeHeader : THttpRequestHeader :=
  mkHeader [("Sec-WebSocket-Key", "dGhlIHNhbXBsZSBub25jZQ==")%string]
           [("TF_SESSIONID", "abc")%string].

Lemma switchToWebSocket_keeps_descriptor_witness :
  heap st0 !! nextPtr st0 = None /\
  (let st' := dispatchOne sampleSessionName sampleFindSession sampleHandshake st0
                (sendDataSwitch 7 upgradeHeader) in
   heap st' !! nextPtr st0 =
     Some (mkSocket (nextUuid st0) 5 "127.0.0.1" EpollWebSocket
             [sampleHandshake upgradeHeader] upgradeHeader) /\
   pollingSockets st' !! nextUuid st0 = Some (nextPtr st0) /\
   pollingSockets st' !! 7%N = None /\
   interest st' !! 5 = Some (EV_RESET, nextPtr st0) /\
   heap st' !! 1%N = Some (mkSocket 7 0 "127.0.0.1" EpollHttpSocket [] emptyHeader) /\
   trace st' = trace st0 ++
     [EvDeleteLater 1; EvEnqueueSendData (nextPtr st0) (sampleHandshake upgradeHeader);
      EvStartWorkerForOpening (nextPtr st0)
        (openingSession sampleSessionName sampleFindSession upgradeHeader)]).
Proof.
  split; [vm_compute; reflexivity|].
  exact (switchToWebSocket_keeps_descriptor sampleSessionName sampleFindSession sampleHandshake
           st0 7 1 httpSock upgradeHeader (EV_RESET, 1%N)
           ltac:(vm_compute; reflexivity) ltac:(discriminate) ltac:(vm_compute; reflexivity)
           ltac:(reflexivity) ltac:(vm_compute; reflexivity) ltac:(reflexivity)
           ltac:(vm_compute; reflexivity) ltac:(vm_compute; reflexivity)
           ltac:(cbv; congruence)).
Defined.

(** ** C4 *)

(** C4 counterexample: adding a connection whose descriptor is already in
    the interest list is reported as a failure ([false]), and the connection
    is not entered in [pollingSockets]. *)
Lemma addPoll_already_registered_fails :
  interest stStale !! 5 = Some (EV_RESET, 1%N) /\
  addPoll 1 EV_RESET stStale = (false, stStale) /\
  pollingSockets (snd (addPoll 1 EV_RESET stStale)) !! 7%N = None.
Proof. vm_compute. repeat split; reflexivity. Qed.

(** C4 (amended): when EPOLL_CTL_ADD fails with EEXIST because the
    descriptor is already registered, [addPoll] logs nothing, changes
    neither the interest list nor [pollingSockets], and returns [false]. *)
Theorem addPoll_eexist_silent_false p events st s e :
  events <> 0 ->
  heap st !! p = Some s -> 0 <= socketDescriptor s ->
  interest st !! socketDescriptor s = Some e ->
  addPoll p events st = (false, st).
Proof.
  intros Hev Hs Hfd Hie. unfold addPoll.
  replace (events =? 0) with false by (symmetry; apply Z.eqb_neq; exact Hev).
  rewrite Hs. unfold tf_epoll_ctl.
  replace (socketDescriptor s <? 0) with false by (symmetry; apply Z.ltb_ge; lia).
  cbn [Z.eqb Pos.eqb EPOLL_CTL_ADD]. rewrite Hie.
  cbn [Z.ltb Z.compare Z.eqb EEXIST negb Pos.eqb]. destruct st; reflexivity.
Qed.

Lemma addPoll_eexist_silent_false_witness :
  interest stStale !! 5 = Some (EV_RESET, 1%N) /\ addPoll 1 EV_RESET stStale = (false, stStale).
Proof.
  split; [vm_compute; reflexivity|].
  apply (addPoll_eexist_silent_false 1 EV_RESET stStale httpSock (EV_RESET, 1%N));
    [discriminate | vm_compute; reflexivity | cbv; discriminate | vm_compute; reflexivity].
Defined.

(** ** C5 *)

(** C5 counterexample: when the UUID is no longer in [pollingSockets],
    [deletePoll] returns [false] and leaves the descriptor in the epoll
    interest list: the readiness mechanism is not touched. *)
Lemma deletePoll_unknown_keeps_interest :
  deletePoll 1 stStale = (false, stStale) /\
  interest (snd (deletePoll 1 stStale)) !! 5 = Some (EV_RESET, 1%N).
Proof. vm_compute. split; reflexivity. Qed.

(** C5 (amended): [deletePoll] consults the registry first. If the UUID is
    not in [pollingSockets] it returns [false] and changes and logs
    nothing. Otherwise it removes the UUID, then issues EPOLL_CTL_DEL for the
    descriptor and returns whether that call succeeded, i.e. whether the
    descriptor was in epoll. A failure with ENOENT is logged at debug level
    only; any other failure (EBADF for an invalid descriptor) is logged as
    an error and leaves the interest list unchanged. *)
Theorem deletePoll_registry_first p st s :
  heap st !! p = Some s ->
  (pollingSockets st !! socketUuid s = None -> deletePoll p st = (false, st)) /\
  (is_Some (pollingSockets st !! socketUuid s) ->
   let r := deletePoll p st in
   pollingSockets (snd r) = delete (socketUuid s) (pollingSockets st) /\
   (0 <= socketDescriptor s ->
    fst r = bool_decide (is_Some (interest st !! socketDescriptor s)) /\
    interest (snd r) = delete (socketDescriptor s) (interest st) /\
    syslog (snd r) = syslog st ++ [SystemDebug "OK epoll_ctl (EPOLL_CTL_DEL)"]) /\
   (socketDescriptor s < 0 ->
    fst r = false /\ interest (snd r) = interest st /\
    syslog (snd r) = syslog st ++ [SystemError "Failed epoll_ctl (EPOLL_CTL_DEL)"])).
Proof.
  intros Hs. unfold deletePoll. rewrite Hs. split.
  - intros Hn. rewrite Hn. reflexivity.
  - intros [q Hq]. rewrite Hq. unfold tf_epoll_ctl.
    destruct (socketDescriptor s <? 0) eqn:Hneg.
    + apply Z.ltb_lt in Hneg.
      cbn [fst snd syslog pollingSockets interest set_pollingSockets set_interest log
           Z.ltb Z.compare Z.eqb negb andb ENOENT EBADF Pos.eqb].
      split; [reflexivity|]. split; [intros; lia|]. intros _. repeat split.
    + apply Z.ltb_ge in Hneg.
      cbn [Z.eqb Pos.eqb EPOLL_CTL_DEL EPOLL_CTL_ADD EPOLL_CTL_MOD interest set_pollingSockets].
      split; [destruct (interest st !! socketDescriptor s); reflexivity|].
      split; [|intros; lia]. intros _.
      destruct (interest st !! socketDescriptor s) as [e|] eqn:Hie.
      * rewrite bool_decide_eq_true_2 by (eexists; reflexivity).
        cbn [fst snd syslog pollingSockets interest set_interest log Z.ltb Z.compare
             Z.eqb negb andb ENOENT Pos.eqb].
        repeat split; reflexivity.
      * rewrite bool_decide_eq_false_2 by (intros [? ?]; discriminate).
        cbn [fst snd syslog pollingSockets interest set_interest log Z.ltb Z.compare
             Z.eqb negb andb ENOENT Pos.eqb].
        rewrite (delete_id _ _ Hie). repeat split; reflexivity.
Qed.

Lemma deletePoll_registry_first_witness :
  heap st0 !! 1%N = Some httpSock /\
  fst (deletePoll 1 st0) = bool_decide (is_Some (interest st0 !! socketDescriptor httpSock)).
Proof.
  split; [vm_compute; reflexivity|].
  destruct (deletePoll_registry_first 1 st0 httpSock
              ltac:(vm_compute; reflexivity)) as [_ H2].
  exact (proj1 (proj1 (proj2 (H2 ltac:(vm_compute; eexists; reflexivity)))
                 ltac:(cbv; discriminate))).
Defined.

(* ------------------------------------------------------------------ *)
(** ** The WebSocket worker *)

Lemma sendPayload_app frame u l1 l2 :
  sendPayload frame u (l1 ++ l2) =
  (fst (sendPayload frame u l1) ++ fst (sendPayload frame u l2),
   snd (sendPayload frame u l1) ++ snd (sendPayload frame u l2)).
Proof.
  induction l1 as [|v l1 IH]; simpl.
  - destruct (sendPayload frame u l2); reflexivity.
  - rewrite IH. destruct (sendPayloadEntry frame u v), (sendPayload frame u l1); simpl.
    by rewrite !app_assoc.
Qed.

(** ** C6 *)

(** C6 (failing input): the opening worker of a connection whose cookie
    resolved to the session "abc" does not call onOpen; it logs
    "Invalid logic" and enqueues nothing. *)
Lemma opening_with_resolved_session_skips_onOpen :
  run sampleEndpointOf sampleFrame (openingWorker 7 (mkSession "abc")) =
  mkRun [] [AppError "Invalid logic"] [].
Proof. vm_compute. reflexivity. Qed.

(** The same worker with an empty session does call onOpen. *)
Lemma opening_with_empty_session_calls_onOpen :
  invoked (run sampleEndpointOf sampleFrame (openingWorker 7 emptySession)) =
  [CbOpen emptySession].
Proof. vm_compute. reflexivity. Qed.

(** ** C7 *)

(** C7 counterexample: when no endpoint is found for the path, a frame with
    the reserved opcode 3 is dropped without any log entry. *)
Lemma unknown_opcode_no_endpoint_not_logged :
  run noEndpointOf sampleFrame (frameWorker 7 "/chat" 3 "x") = mkRun [] [] [].
Proof. reflexivity. Qed.

(** C7 (amended): a frame whose opcode is outside {Continuation, Text,
    Binary, Close, Ping, Pong} invokes no callback and enqueues no action, so
    the reactor's handling of its queue, and with it the connection's
    registration, is unaffected; a warning "Invalid opcode" is logged when
    the endpoint resolves, and nothing is logged when it does not. *)
Theorem unknown_opcode_dropped endpointOf frame (w : TWebSocketWorker) :
  knownOpcode (opcode w) = false ->
  let r := run endpointOf frame w in
  invoked r = [] /\ enqueued r = [] /\
  applog r = (match endpointOf (requestPath w) with
              | Some _ => [AppWarn "Invalid opcode"]
              | None => []
              end) /\
  (forall sn fs hr st q,
     dispatchSendData sn fs hr st (q ++ enqueued r) = dispatchSendData sn fs hr st q).
Proof.
  intros Hk. unfold knownOpcode in Hk.
  apply orb_false_elim in Hk as [Hk HPong].
  apply orb_false_elim in Hk as [Hk HPing].
  apply orb_false_elim in Hk as [Hk HClose].
  apply orb_false_elim in Hk as [Hk HBin].
  apply orb_false_elim in Hk as [HCont HText].
  unfold run. destruct (endpointOf (requestPath w)) as [ep|].
  - unfold dispatchOpcode. rewrite HCont, HText, HBin, HClose, HPing, HPong. cbn.
    repeat split. intros. by rewrite app_nil_r.
  - cbn. repeat split. intros. by rewrite app_nil_r.
Qed.

Lemma unknown_opcode_dropped_witness :
  knownOpcode (opcode (frameWorker 7 "/chat" 3 "x")) = false /\
  applog (run sampleEndpointOf sampleFrame (frameWorker 7 "/chat" 3 "x")) =
    [AppWarn "Invalid opcode"].
Proof.
  split; [reflexivity|].
  exact (proj1 (proj2 (proj2 (unknown_opcode_dropped sampleEndpointOf sampleFrame
                                (frameWorker 7 "/chat" 3 "x") eq_refl)))).
Defined.

(** ** C8 *)

Lemma sendPayload_directives frame u (ds : list Directive) :
  sendPayload frame u (map toVariant ds) = ([], map (directiveAction frame u) ds).
Proof.
  induction ds as [|d ds IH]; [reflexivity|].
  cbn [map sendPayload]. rewrite IH.
  destruct d; reflexivity.
Qed.

(** C8: after the callback, the worker drains its [payloadList] in order:
    when the list holds the directives [ds], the worker enqueues exactly one
    action per directive, in list order (text -> Send of a text frame,
    binary -> Send of a binary frame, close -> Disconnect, ping / pong ->
    Send of the control frame), and logs nothing more. *)
Theorem payload_translated_in_order endpointOf frame (w : TWebSocketWorker) ep ds :
  endpointOf (requestPath w) = Some ep ->
  snd (dispatchOpcode w ep) = map toVariant ds ->
  let r := run endpointOf frame w in
  invoked r = fst (fst (dispatchOpcode w ep)) /\
  applog r = snd (fst (dispatchOpcode w ep)) /\
  enqueued r = map (directiveAction frame (socketUuid_w w)) ds.
Proof.
  intros Hep Hpl. unfold run. rewrite Hep.
  destruct (dispatchOpcode w ep) as [[cbs lg] pl]. cbn in Hpl |- *. subst pl.
  rewrite sendPayload_directives. cbn. rewrite app_nil_r. repeat split.
Qed.

Lemma payload_translated_in_order_witness :
  scriptedEndpointOf (requestPath (frameWorker 7 "/chat" OpCode.TextFrame "go")) =
    Some scriptedEndpoint /\
  enqueued (run scriptedEndpointOf sampleFrame (frameWorker 7 "/chat" OpCode.TextFrame "go")) =
    [sendDataSend 7 (sampleFrame OpCode.TextFrame "a"); sendDataSend 7 (sampleFrame OpCode.BinaryFrame "b");
     sendDataDisconnect 7; sendDataSend 7 (sampleFrame OpCode.Ping "");
     sendDataSend 7 (sampleFrame OpCode.Pong "")].
Proof.
  split; [reflexivity|].
  exact (proj2 (proj2 (payload_translated_in_order scriptedEndpointOf sampleFrame
                         (frameWorker 7 "/chat" OpCode.TextFrame "go") scriptedEndpoint
                         scriptedDirectives eq_refl ltac:(vm_compute; reflexivity)))).
Defined.

(** ** C9 *)

(** C9: with a resolved endpoint, a Ping frame calls onPing and then always
    queues a Pong after whatever onPing produced, and a Close frame calls
    onClose and then always queues a Disconnect after whatever onClose
    produced; in particular a silent onPing still yields a Pong. *)
Theorem ping_close_always_answered endpointOf frame u path data ep :
  endpointOf path = Some ep ->
  (let r := run endpointOf frame (frameWorker u path OpCode.Ping data) in
   invoked r = [CbPing] /\
   enqueued r = snd (sendPayload frame u (onPing ep)) ++ [sendPongTo frame u]) /\
  (let r := run endpointOf frame (frameWorker u path OpCode.Close data) in
   invoked r = [CbClose] /\
   enqueued r = snd (sendPayload frame u (onClose ep)) ++ [disconnectWs u]).
Proof.
  intros Hep. unfold run, frameWorker. cbn [requestPath]. rewrite Hep.
  unfold dispatchOpcode. cbn [opcode socketUuid_w Z.eqb Pos.eqb OpCode.Ping OpCode.Close
    OpCode.Continuation OpCode.TextFrame OpCode.BinaryFrame OpCode.Pong].
  unfold sendPong, closeWebSocket. rewrite !sendPayload_app. cbn.
  split; split; reflexivity.
Qed.

Lemma ping_close_always_answered_witness :
  sampleEndpointOf "/chat" = Some echoEndpoint /\
  enqueued (run sampleEndpointOf sampleFrame (frameWorker 7 "/chat" OpCode.Ping "")) =
    [sendPongTo sampleFrame 7].
Proof.
  split; [reflexivity|].
  exact (proj2 (proj1 (ping_close_always_answered sampleEndpointOf sampleFrame 7 "/chat" ""
                         echoEndpoint eq_refl))).
Defined.

(* ------------------------------------------------------------------ *)
(** ** C10 *)

(** C10: while [eventIterator <= 0] (right after [wait], before any
    [next]), [canReceive] and [canSend] return [false] without touching the
    event array: their result is the same whatever the array holds, and no
    out-of-bounds access happens. *)
Theorem can_before_next_false (c : EventCursor) :
  eventIterator c <= 0 ->
  canReceive c = Some false /\ canSend c = Some false /\
  (forall evs,
     canReceive (mkCursor evs (numEvents c) (eventIterator c)) = Some false /\
     canSend (mkCursor evs (numEvents c) (eventIterator c)) = Some false).
Proof.
  intros H. unfold canReceive, canSend. cbn [eventIterator].
  replace (eventIterator c <=? 0) with true by (symmetry; apply Z.leb_le; exact H).
  repeat split.
Qed.

Lemma can_before_next_false_witness :
  eventIterator (wait 2 [(EPOLLIN, 1%N); (EPOLLOUT, 2%N)] (mkCursor [] 0 0)) <= 0 /\
  canReceive (wait 2 [(EPOLLIN, 1%N); (EPOLLOUT, 2%N)] (mkCursor [] 0 0)) = Some false.
Proof.
  split; [cbv; discriminate|].
  exact (proj1 (can_before_next_false
                  (wait 2 [(EPOLLIN, 1%N); (EPOLLOUT, 2%N)] (mkCursor [] 0 0))
                  ltac:(cbv; discriminate))).
Defined.

(* ================================================================== *)
(** * Further properties of the code *)

(* ------------------------------------------------------------------ *)
(** ** The event cursor: wait, next, canReceive, canSend *)

Lemma drop_nth_error {A} (l : list A) j e :
  nth_error l j = Some e -> drop j l = e :: drop (S j) l.
Proof.
  revert j; induction l as [|x l IH]; intros [|j] H; simpl in *; try discriminate.
  - by inversion H.
  - by apply IH.
Qed.

Lemma event_at_in_bounds (filled : list (Z * N)) i :
  0 <= i -> i < MaxEvents -> (Z.to_nat i < length filled)%nat ->
  exists e, nth_error filled (Z.to_nat i) = Some e /\ event_at filled i = Some e.
Proof.
  intros H0 H1 H2. unfold event_at.
  replace ((0 <=? i) && (i <? MaxEvents)) with true
    by (symmetry; apply andb_true_intro; split; [apply Z.leb_le | apply Z.ltb_lt]; lia).
  destruct (nth_error filled (Z.to_nat i)) as [e|] eqn:He.
  - by exists e.
  - apply nth_error_None in He. lia.
Qed.

Lemma nexts_S k c :
  nexts (S k) c = let '(x, c) := next c in let '(xs, c) := nexts k c in (x :: xs, c).
Proof. reflexivity. Qed.

Lemma nexts_cursor filled n : 0 <= n ->
  forall k i, 0 <= i <= n ->
  snd (nexts k (mkCursor filled n i)) = mkCursor filled n (Z.min (i + Z.of_nat k) n).
Proof.
  intros Hn k. induction k as [|k IH]; intros i Hi; cbn [nexts].
  - cbn [snd]. f_equal. lia.
  - unfold next at 1. cbn [eventIterator numEvents events].
    destruct (i <? n) eqn:Hlt.
    + apply Z.ltb_lt in Hlt.
      destruct (nexts k (mkCursor filled n (i + 1))) as [xs c'] eqn:Hk.
      cbn. specialize (IH (i + 1) ltac:(lia)). rewrite Hk in IH. cbn in IH.
      rewrite IH. f_equal. lia.
    + apply Z.ltb_ge in Hlt.
      destruct (nexts k (mkCursor filled n i)) as [xs c'] eqn:Hk.
      cbn. specialize (IH i Hi). rewrite Hk in IH. cbn in IH.
      rewrite IH. f_equal. lia.
Qed.

Lemma nexts_from filled n : n <= MaxEvents -> (Z.to_nat n <= length filled)%nat ->
  forall k i, 0 <= i -> i + Z.of_nat k = n ->
  fst (nexts (S k) (mkCursor filled n i)) =
  map (fun e => Some e.2) (take k (drop (Z.to_nat i) filled)) ++ [None].
Proof.
  intros Hmax Hlen k. induction k as [|k IH]; intros i Hi Hik.
  - cbn [nexts]. unfold next. cbn [eventIterator numEvents].
    replace (i <? n) with false by (symmetry; apply Z.ltb_ge; lia). reflexivity.
  - rewrite nexts_S. unfold next at 1. cbn [eventIterator numEvents events].
    replace (i <? n) with true by (symmetry; apply Z.ltb_lt; lia).
    destruct (event_at_in_bounds filled i ltac:(lia) ltac:(lia) ltac:(lia)) as [e [Hn He]].
    rewrite He.
    destruct (nexts (S k) (mkCursor filled n (i + 1))) as [xs c'] eqn:Hk.
    specialize (IH (i + 1) ltac:(lia) ltac:(lia)). rewrite Hk in IH. cbn in IH |- *.
    rewrite IH, (drop_nth_error _ _ _ Hn).
    replace (S (Z.to_nat i)) with (Z.to_nat (i + 1)) by lia. reflexivity.
Qed.

(** After [wait] returned [n] ready events ([0 <= n <= MaxEvents]), calling
    [next()] [n + 1] times yields the data pointers of the first [n] events
    in array order, then the null pointer. *)
Theorem wait_next_enumerates n filled c :
  0 <= n <= MaxEvents -> (Z.to_nat n <= length filled)%nat ->
  fst (nexts (S (Z.to_nat n)) (wait n filled c)) =
  map (fun e => Some e.2) (take (Z.to_nat n) filled) ++ [None].
Proof.
  intros Hn Hlen. unfold wait.
  rewrite (nexts_from filled n ltac:(lia) Hlen (Z.to_nat n) 0 ltac:(lia) ltac:(lia)).
  reflexivity.
Qed.

Lemma wait_next_enumerates_witness :
  (0 <= 2 <= MaxEvents /\ (Z.to_nat 2 <= length [(EPOLLIN, 5%N); (EPOLLOUT, 6%N)])%nat) /\
  fst (nexts 3 (wait 2 [(EPOLLIN, 5%N); (EPOLLOUT, 6%N)] (mkCursor [] 0 0))) =
    [Some 5%N; Some 6%N; None].
Proof.
  split; [split; [unfold MaxEvents; lia | cbv; lia]|].
  exact (wait_next_enumerates 2 [(EPOLLIN, 5%N); (EPOLLOUT, 6%N)] (mkCursor [] 0 0)
           ltac:(unfold MaxEvents; lia) ltac:(cbv; lia)).
Defined.

(** After [wait] returned [n] ([0 <= n <= MaxEvents]) and any number [k] of
    [next()] calls, [canReceive] and [canSend] never read outside the event
    array; once [k] is between 1 and [n] they report the EPOLLIN and
    EPOLLOUT bits of event [k - 1], the one [next()] last returned. *)
Theorem can_after_nexts_in_bounds n filled c k :
  0 <= n <= MaxEvents -> (Z.to_nat n <= length filled)%nat ->
  let c' := snd (nexts k (wait n filled c)) in
  exists b1 b2, canReceive c' = Some b1 /\ canSend c' = Some b2 /\
    ((1 <= k)%nat -> Z.of_nat k <= n ->
     exists e, nth_error filled (k - 1) = Some e /\
       b1 = negb (Z.land e.1 EPOLLIN =? 0) /\ b2 = negb (Z.land e.1 EPOLLOUT =? 0)).
Proof.
  intros Hn Hlen c'. unfold c', wait.
  rewrite (nexts_cursor filled n ltac:(lia) k 0 ltac:(lia)).
  unfold canReceive, canSend. cbn [eventIterator events].
  destruct (Z.min (0 + Z.of_nat k) n <=? 0) eqn:Hz.
  - exists false, false. repeat split. intros Hk Hkn. apply Z.leb_le in Hz. lia.
  - apply Z.leb_gt in Hz.
    destruct (event_at_in_bounds filled (Z.min (0 + Z.of_nat k) n - 1)
                ltac:(lia) ltac:(lia) ltac:(lia)) as [e [Hne He]].
    rewrite He. cbn.
    eexists _, _. repeat split. intros Hk Hkn. exists e. split; [|split; reflexivity].
    replace (k - 1)%nat with (Z.to_nat (Z.min (0 + Z.of_nat k) n - 1)) by lia. exact Hne.
Qed.

Lemma can_after_nexts_in_bounds_witness :
  (0 <= 2 <= MaxEvents /\ (Z.to_nat 2 <= length [(EPOLLIN, 5%N); (EPOLLOUT, 6%N)])%nat) /\
  canSend (snd (nexts 2 (wait 2 [(EPOLLIN, 5%N); (EPOLLOUT, 6%N)] (mkCursor [] 0 0)))) = Some true.
Proof.
  split; [split; [unfold MaxEvents; lia | cbv; lia]|].
  destruct (can_after_nexts_in_bounds 2 [(EPOLLIN, 5%N); (EPOLLOUT, 6%N)] (mkCursor [] 0 0) 2
              ltac:(unfold MaxEvents; lia) ltac:(cbv; lia)) as [b1 [b2 [_ [H2 H3]]]].
  destruct (H3 ltac:(lia) ltac:(lia)) as [e [He [_ Hb2]]].
  cbn in He. inversion He. subst. exact H2.
Defined.

(** When [wait] returned no events (timeout, [0]) or failed (negative),
    [next()] returns the null pointer however often it is called, and
    [canReceive] / [canSend] stay [false]. *)
Theorem wait_none_next_null ret filled c k :
  ret <= 0 ->
  let r := nexts k (wait ret filled c) in
  fst r = repeat None k /\ canReceive (snd r) = Some false /\ canSend (snd r) = Some false.
Proof.
  intros Hret. unfold wait.
  assert (H : forall k, nexts k (mkCursor filled ret 0) = (repeat None k, mkCursor filled ret 0)).
  { induction k0 as [|k0 IH]; [reflexivity|]. cbn [nexts]. unfold next at 1.
    cbn [eventIterator numEvents].
    replace (0 <? ret) with false by (symmetry; apply Z.ltb_ge; lia).
    rewrite IH. reflexivity. }
  rewrite H. cbn. repeat split.
Qed.

Lemma wait_none_next_null_witness :
  -1 <= 0 /\ fst (nexts 2 (wait (-1) [(EPOLLIN, 5%N)] (mkCursor [] 0 0))) = [None; None].
Proof.
  split; [lia|].
  exact (proj1 (wait_none_next_null (-1) [(EPOLLIN, 5%N)] (mkCursor [] 0 0) 2 ltac:(lia))).
Defined.

(* ------------------------------------------------------------------ *)
(** ** addPoll, modifyPoll and deletePoll *)

(** [addPoll] of a connection whose descriptor is not yet in the interest
    list succeeds: the descriptor is registered with the requested events
    and the connection itself as data, the connection enters
    [pollingSockets] under its UUID, and only a debug line is logged. *)
Theorem addPoll_fresh_registers p events st s :
  events <> 0 -> heap st !! p = Some s -> 0 <= socketDescriptor s ->
  interest st !! socketDescriptor s = None ->
  let r := addPoll p events st in
  fst r = true /\
  pollingSockets (snd r) = <[socketUuid s := p]> (pollingSockets st) /\
  interest (snd r) = <[socketDescriptor s := (events, p)]> (interest st) /\
  heap (snd r) = heap st /\ trace (snd r) = trace st /\
  syslog (snd r) = syslog st ++ [SystemDebug "OK epoll_ctl (EPOLL_CTL_ADD)"].
Proof.
  intros Hev Hs Hfd Hie. unfold addPoll.
  replace (events =? 0) with false by (symmetry; apply Z.eqb_neq; exact Hev).
  rewrite Hs. unfold tf_epoll_ctl.
  replace (socketDescriptor s <? 0) with false by (symmetry; apply Z.ltb_ge; lia).
  cbn [Z.eqb Pos.eqb EPOLL_CTL_ADD]. rewrite Hie. red_proj.
  repeat split.
Qed.

Lemma addPoll_fresh_registers_witness :
  interest stStale !! 6 = None /\
  fst (addPoll 2 EV_RESET (set_heap (<[2%N := mkSocket 8 6 "10.0.0.2" EpollHttpSocket [] emptyHeader]>
                                       (heap stStale)) stStale)) = true.
Proof.
  split; [vm_compute; reflexivity|].
  exact (proj1 (addPoll_fresh_registers 2 EV_RESET
           (set_heap (<[2%N := mkSocket 8 6 "10.0.0.2" EpollHttpSocket [] emptyHeader]>
                        (heap stStale)) stStale)
           (mkSocket 8 6 "10.0.0.2" EpollHttpSocket [] emptyHeader)
           ltac:(discriminate) ltac:(vm_compute; reflexivity) ltac:(cbv; discriminate)
           ltac:(vm_compute; reflexivity))).
Defined.

(** [deletePoll] undoes a successful [addPoll]: for a connection neither in
    [pollingSockets] nor in the interest list, adding then deleting it
    returns [true] twice and gives back the original registry and interest
    list. *)
Theorem addPoll_deletePoll_roundtrip p events st s :
  events <> 0 -> heap st !! p = Some s -> 0 <= socketDescriptor s ->
  interest st !! socketDescriptor s = None ->
  pollingSockets st !! socketUuid s = None ->
  let r1 := addPoll p events st in
  let r2 := deletePoll p (snd r1) in
  fst r1 = true /\ fst r2 = true /\
  pollingSockets (snd r2) = pollingSockets st /\ interest (snd r2) = interest st.
Proof.
  intros Hev Hs Hfd Hie Hpu.
  destruct (addPoll_fresh_registers p events st s Hev Hs Hfd Hie)
    as [H1 [Hps [Hin [Hh _]]]].
  destruct (addPoll p events st) as [b st1]. cbn in *.
  unfold deletePoll. rewrite Hh, Hs, Hps, lookup_insert_eq. unfold tf_epoll_ctl.
  replace (socketDescriptor s <? 0) with false by (symmetry; apply Z.ltb_ge; lia).
  unfold set_pollingSockets, set_interest, log. red_proj.
  rewrite Hin, lookup_insert_eq. red_proj.
  split; [exact H1|]. split; [reflexivity|]. split.
  - by apply delete_insert_id.
  - by apply delete_insert_id.
Qed.

Lemma addPoll_deletePoll_roundtrip_witness :
  pollingSockets stStale !! 7%N = None /\
  pollingSockets (snd (deletePoll 1 (snd (addPoll 1 EV_RESET (set_interest ∅ stStale))))) =
    pollingSockets stStale.
Proof.
  split; [vm_compute; reflexivity|].
  exact (proj1 (proj2 (proj2 (addPoll_deletePoll_roundtrip 1 EV_RESET (set_interest ∅ stStale)
           httpSock ltac:(discriminate) ltac:(vm_compute; reflexivity) ltac:(cbv; discriminate)
           ltac:(vm_compute; reflexivity) ltac:(vm_compute; reflexivity))))).
Defined.

(** [modifyPoll] rearms a registered descriptor with the new events and
    returns [true]; on a descriptor missing from the interest list it
    returns [false], logs an error and changes nothing else. The registry
    is never touched. *)
Theorem modifyPoll_rearm p events st s :
  events <> 0 -> heap st !! p = Some s -> 0 <= socketDescriptor s ->
  let r := modifyPoll p events st in
  pollingSockets (snd r) = pollingSockets st /\
  (is_Some (interest st !! socketDescriptor s) ->
   fst r = true /\
   interest (snd r) = <[socketDescriptor s := (events, p)]> (interest st) /\
   syslog (snd r) = syslog st ++ [SystemDebug "OK epoll_ctl (EPOLL_CTL_MOD)"]) /\
  (interest st !! socketDescriptor s = None ->
   fst r = false /\ interest (snd r) = interest st /\
   syslog (snd r) = syslog st ++ [SystemError "Failed epoll_ctl (EPOLL_CTL_MOD)"]).
Proof.
  intros Hev Hs Hfd. unfold modifyPoll.
  replace (events =? 0) with false by (symmetry; apply Z.eqb_neq; exact Hev).
  rewrite Hs. unfold tf_epoll_ctl.
  replace (socketDescriptor s <? 0) with false by (symmetry; apply Z.ltb_ge; lia).
  red_proj.
  destruct (interest st !! socketDescriptor s) as [e|] eqn:Hie; red_proj.
  - repeat split; try done; try (intros Hx; discriminate).
  - repeat split; try done; try (intros [? Hx]; discriminate).
Qed.

Lemma modifyPoll_rearm_witness :
  heap st0 !! 1%N = Some httpSock /\
  interest (snd (modifyPoll 1 EPOLLIN st0)) !! 5 = Some (EPOLLIN, 1%N).
Proof.
  split; [vm_compute; reflexivity|].
  destruct (modifyPoll_rearm 1 EPOLLIN st0 httpSock ltac:(discriminate)
              ltac:(vm_compute; reflexivity) ltac:(cbv; discriminate)) as [_ [H _]].
  destruct (H ltac:(vm_compute; eexists; reflexivity)) as [_ [Hi _]].
  rewrite Hi. apply lookup_insert_eq.
Defined.

(* ------------------------------------------------------------------ *)
(** ** The Send and Disconnect branches of dispatchSendData *)

(** A [setSendData(uuid, data)] for a live connection (registered, with a
    positive descriptor in the interest list) appends the data to that
    connection's outgoing queue and rearms its descriptor with
    EPOLLIN | EPOLLOUT | EPOLLET; the registry is unchanged and nothing is
    logged as an error. *)
Theorem setSendData_dispatch_appends sn fs hr st u p s e data :
  pollingSockets st !! u = Some p -> p <> 0%N ->
  heap st !! p = Some s -> 0 < socketDescriptor s ->
  interest st !! socketDescriptor s = Some e ->
  let st' := fst (dispatchSendData sn fs hr st (setSendData [] u data)) in
  heap st' !! p = Some (mkSocket (socketUuid s) (socketDescriptor s) (clientAddress s)
                          (kind s) (sendBuf s ++ [data]) (wsHeader s)) /\
  interest st' !! socketDescriptor s = Some (EV_RESET, p) /\
  pollingSockets st' = pollingSockets st /\
  trace st' = trace st ++ [EvEnqueueSendData p data] /\
  syslog st' = syslog st ++ [SystemDebug "OK epoll_ctl (EPOLL_CTL_MOD)"%string].
Proof.
  intros Hp Hp0 Hs Hfd Hie.
  assert (Hneg : (socketDescriptor s <? 0) = false) by (apply Z.ltb_ge; lia).
  unfold dispatchSendData, setSendData, enqueue, dequeue. cbn [app fold_left].
  unfold dispatchOne, subscript. red_proj. rewrite Hp.
  replace ((p =? 0)%N) with false by (symmetry; apply N.eqb_neq; exact Hp0).
  rewrite Hs. replace (0 <? socketDescriptor s) with true by (symmetry; apply Z.ltb_lt; lia).
  unfold record_applied, enqueueSendData. red_proj. rewrite Hs.
  unfold createSendBuffer, set_heap, emit, modifyPoll. red_proj.
  replace (EV_RESET =? 0) with false by reflexivity.
  rewrite lookup_insert_eq. red_proj. unfold tf_epoll_ctl. rewrite Hneg. red_ctl.
  rewrite Hie. unfold set_interest, log. red_proj.
  repeat split.
  - apply lookup_insert_eq.
  - apply lookup_insert_eq.
Qed.

Lemma setSendData_dispatch_appends_witness :
  pollingSockets st0 !! 7%N = Some 1%N /\
  trace (fst (dispatchSendData sampleSessionName sampleFindSession sampleHandshake st0
                (setSendData [] 7 "hello"%string))) = [EvEnqueueSendData 1 "hello"%string].
Proof.
  split; [vm_compute; reflexivity|].
  exact (proj1 (proj2 (proj2 (proj2 (setSendData_dispatch_appends sampleSessionName
           sampleFindSession sampleHandshake st0 7 1 httpSock (EV_RESET, 1%N) "hello"%string
           ltac:(vm_compute; reflexivity) ltac:(discriminate) ltac:(vm_compute; reflexivity)
           ltac:(vm_compute; reflexivity) ltac:(vm_compute; reflexivity)))))).
Defined.



Lemma dispatchOne_dead_uuid sn fs hr st sd :
  pollingSockets st !! uuid sd = None \/ pollingSockets st !! uuid sd = Some 0%N ->
  let st' := dispatchOne sn fs hr st sd in
  heap st' = heap st /\ interest st' = interest st /\ trace st' = trace st /\
  syslog st' = syslog st /\ applied st' = applied st /\
  pollingSockets st' = <[uuid sd := 0%N]> (pollingSockets st).
Proof.
  intros [H|H]; unfold dispatchOne, subscript; rewrite H; red_proj.
  - repeat split.
  - repeat split. symmetry. by apply insert_id.
Qed.

(** Once a UUID has no live entry in [pollingSockets] (after its
    Disconnect, or never registered), every later queued action for it,
    whatever its kind, is dropped: the sockets, the interest list, the
    events, the log and the set of applied actions stay as they were. *)
Theorem dispatch_after_disconnect_dropped sn fs hr st u (l : list TSendData) :
  pollingSockets st !! u = None \/ pollingSockets st !! u = Some 0%N ->
  Forall (fun sd => uuid sd = u) l ->
  let st' := fold_left (dispatchOne sn fs hr) l st in
  heap st' = heap st /\ interest st' = interest st /\ trace st' = trace st /\
  syslog st' = syslog st /\ applied st' = applied st.
Proof.
  intros Hu Hl. revert st Hu. induction Hl as [|sd l Hsd Hl IH]; intros st Hu; cbn [fold_left].
  - repeat split.
  - rewrite <- Hsd in Hu.
    destruct (dispatchOne_dead_uuid sn fs hr st sd Hu) as [H1 [H2 [H3 [H4 [H5 H6]]]]].
    rewrite <- Hsd in IH.
    destruct (IH (dispatchOne sn fs hr st sd)) as [G1 [G2 [G3 [G4 G5]]]].
    { right. rewrite H6. apply lookup_insert_eq. }
    rewrite G1, G2, G3, G4, G5, H1, H2, H3, H4, H5. repeat split.
Qed.

Lemma dispatch_after_disconnect_dropped_witness :
  let st1 := runQueue st0 [sendDataDisconnect 7] in
  pollingSockets st1 !! 7%N = None /\
  trace (fold_left (dispatchOne sampleSessionName sampleFindSession sampleHandshake)
           [sendDataSend 7 "late"%string; sendDataSwitch 7 upgradeHeader; sendDataDisconnect 7] st1)
  = trace st1.
Proof.
  intros st1. split; [vm_compute; reflexivity|].
  exact (proj1 (proj2 (proj2 (dispatch_after_disconnect_dropped sampleSessionName
           sampleFindSession sampleHandshake st1 7
           [sendDataSend 7 "late"%string; sendDataSwitch 7 upgradeHeader; sendDataDisconnect 7]
           ltac:(left; vm_compute; reflexivity)
           ltac:(repeat constructor))))).
Defined.

(** A registered connection whose descriptor is not positive (such as an
    HTTP connection whose descriptor was handed to a WebSocket) is skipped:
    applying any action to it leaves the reactor state exactly as it was. *)
Theorem dispatchOne_nonpositive_fd_skipped sn fs hr st sd p s :
  pollingSockets st !! uuid sd = Some p -> heap st !! p = Some s ->
  socketDescriptor s <= 0 ->
  dispatchOne sn fs hr st sd = st.
Proof.
  intros Hp Hs Hfd. unfold dispatchOne, subscript. rewrite Hp. red_proj.
  destruct (p =? 0)%N; [reflexivity|]. rewrite Hs.
  replace (0 <? socketDescriptor s) with false by (symmetry; apply Z.ltb_ge; lia).
  reflexivity.
Qed.

Lemma dispatchOne_nonpositive_fd_skipped_witness :
  let st1 := set_heap (<[1%N := mkSocket 7 0 "127.0.0.1"%string EpollHttpSocket [] emptyHeader]>
                         (heap st0)) st0 in
  heap st1 !! 1%N = Some (mkSocket 7 0 "127.0.0.1"%string EpollHttpSocket [] emptyHeader) /\
  dispatchOne sampleSessionName sampleFindSession sampleHandshake st1 (sendDataDisconnect 7) = st1.
Proof.
  intros st1. split; [vm_compute; reflexivity|].
  exact (dispatchOne_nonpositive_fd_skipped sampleSessionName sampleFindSession
           sampleHandshake st1 (sendDataDisconnect 7) 1
           (mkSocket 7 0 "127.0.0.1"%string EpollHttpSocket [] emptyHeader)
           ltac:(vm_compute; reflexivity) ltac:(vm_compute; reflexivity) ltac:(cbv; discriminate)).
Defined.

(* ------------------------------------------------------------------ *)
(** ** TEpoll::releaseAllPollingSockets *)

Lemma fold_deleteLater (l : list (N * N)) st :
  fold_left (fun st kv => deleteLater kv.2 st) l st =
  mkEpoll (heap st) (pollingSockets st) (interest st) (nextPtr st) (nextUuid st)
    (trace st ++ map (fun kv => EvDeleteLater kv.2) l) (syslog st) (applied st).
Proof.
  revert st. induction l as [|kv l IH]; intros st; cbn [fold_left map].
  - rewrite app_nil_r. destruct st; reflexivity.
  - rewrite IH. unfold deleteLater, emit. cbn [heap pollingSockets interest nextPtr nextUuid
      trace syslog applied]. by rewrite <- app_assoc.
Qed.


(** releaseAllPollingSockets empties the registry and schedules the
    deletion of every registered connection object exactly once (in some
    order: the new events are a permutation of one EvDeleteLater per
    registry entry). It closes no descriptor and leaves the epoll interest
    list, the connection objects and the log untouched. *)
Theorem releaseAll_defers_every_socket st :
  let st' := releaseAllPollingSockets st in
  pollingSockets st' = ∅ /\ heap st' = heap st /\ interest st' = interest st /\
  syslog st' = syslog st /\
  exists evs, trace st' = trace st ++ evs /\
    evs ≡ₚ map (fun kv => EvDeleteLater kv.2) (map_to_list (pollingSockets st)).
Proof.
  cbv zeta. unfold releaseAllPollingSockets. rewrite fold_deleteLater.
  unfold set_pollingSockets. cbn [heap pollingSockets interest nextPtr nextUuid trace syslog applied].
  repeat split. eexists. split; [reflexivity|].
  apply Permutation_map. unfold qmap_entries. apply merge_sort_Permutation.
Qed.



(* ------------------------------------------------------------------ *)
(** ** TWebSocketWorker::run *)

Lemma sendPayload_addressed frame u l :
  Forall (fun sd => uuid sd = u /\ method sd <> SwitchToWebSocket) (snd (sendPayload frame u l)).
Proof.
  induction l as [|v l IH]; cbn [sendPayload]; [constructor|].
  destruct (sendPayloadEntry frame u v) as [lg q] eqn:E.
  destruct (sendPayload frame u l) as [lg' q'] eqn:E'. cbn [snd] in *.
  apply Forall_app. split; [|exact IH].
  destruct v as [s|b|n|]; cbn in E; [| |repeat case_match|]; simplify_eq;
    repeat constructor; discriminate.
Qed.

(** Whatever the path, opcode, data and endpoint, every action a worker
    run enqueues is addressed to the worker's own connection UUID, and none
    of them is a SwitchToWebSocket; at most one endpoint callback is
    invoked. *)
Theorem run_enqueued_addressed endpointOf frame w :
  Forall (fun sd => uuid sd = socketUuid_w w /\ method sd <> SwitchToWebSocket)
    (enqueued (run endpointOf frame w)) /\
  (length (invoked (run endpointOf frame w)) <= 1)%nat.
Proof.
  unfold run. destruct (endpointOf (requestPath w)) as [ep|]; [|split; [constructor|cbn; lia]].
  destruct (dispatchOpcode w ep) as [[cbs lg] pl] eqn:E.
  pose proof (sendPayload_addressed frame (socketUuid_w w) pl) as Hf.
  destruct (sendPayload frame (socketUuid_w w) pl) as [lg' q]. cbn [enqueued invoked snd] in *.
  split; [exact Hf|].
  unfold dispatchOpcode in E. repeat case_match; simplify_eq; cbn; lia.
Qed.

(** The payload loop handles each entry exactly once: every entry either
    yields one action or one "Invalid logic" error, never both and never
    neither, so the error count plus the action count is the length of
    [payloadList]. *)
Theorem sendPayload_one_outcome_per_entry frame u l :
  (length (fst (sendPayload frame u l)) + length (snd (sendPayload frame u l)) = length l)%nat /\
  Forall (fun e => e = AppError "Invalid logic"%string) (fst (sendPayload frame u l)).
Proof.
  induction l as [|v l [IHn IHf]]; cbn [sendPayload]; [split; [reflexivity|constructor]|].
  destruct (sendPayloadEntry frame u v) as [lg q] eqn:E.
  destruct (sendPayload frame u l) as [lg' q'] eqn:E'. cbn [fst snd length] in *.
  rewrite !length_app.
  destruct v as [s|b|n|]; cbn in E; [| |repeat case_match|]; simplify_eq; cbn [length app];
    (split; [lia|]); repeat constructor; assumption.
Qed.

(** When TDispatcher finds no endpoint for the request path, the worker
    does nothing at all: no callback, no log entry, no action. *)
Theorem run_unresolved_endpoint_inert endpointOf frame w :
  endpointOf (requestPath w) = None ->
  run endpointOf frame w = mkRun [] [] [].
Proof. intros H. unfold run. rewrite H. reflexivity. Qed.

Lemma run_unresolved_endpoint_inert_witness :
  noEndpointOf (requestPath (frameWorker 7 "/chat" OpCode.TextFrame "hi")) = None /\
  run noEndpointOf sampleFrame (frameWorker 7 "/chat" OpCode.TextFrame "hi") = mkRun [] [] [].
Proof.
  split; [reflexivity|].
  exact (run_unresolved_endpoint_inert noEndpointOf sampleFrame
           (frameWorker 7 "/chat" OpCode.TextFrame "hi") eq_refl).
Defined.

(* ------------------------------------------------------------------ *)
(** ** A Close frame, end to end *)

Lemma modifyPoll_heap p e st : heap (snd (modifyPoll p e st)) = heap st.
Proof. frame_tac. Qed.
Lemma modifyPoll_pollingSockets p e st :
  pollingSockets (snd (modifyPoll p e st)) = pollingSockets st.
Proof. frame_tac. Qed.
Lemma deletePoll_heap p st : heap (snd (deletePoll p st)) = heap st.
Proof. frame_tac. Qed.

Lemma deletePoll_pollingSockets_live p s st :
  heap st !! p = Some s -> is_Some (pollingSockets st !! socketUuid s) ->
  pollingSockets (snd (deletePoll p st)) = delete (socketUuid s) (pollingSockets st).
Proof.
  intros Hs [x Hx]. unfold deletePoll. rewrite Hs, Hx.
  destruct (tf_epoll_ctl _ _ _ _) as [[r e] ie]. cbn [snd].
  destruct (_ && _); reflexivity.
Qed.


Lemma live_send sn fs hr st sd p fd :
  live_at st (uuid sd) p fd -> method sd = Send ->
  live_at (dispatchOne sn fs hr st sd) (uuid sd) p fd.
Proof.
  intros [Hp [Hp0 [s [Hs [Hu [Hfd Hpos]]]]]] Hm.
  unfold dispatchOne, subscript. rewrite Hp. red_proj.
  replace ((p =? 0)%N) with false by (symmetry; apply N.eqb_neq; exact Hp0).
  rewrite Hs. replace (0 <? socketDescriptor s) with true by (symmetry; apply Z.ltb_lt; lia).
  rewrite Hm. unfold live_at. rewrite modifyPoll_heap, modifyPoll_pollingSockets.
  unfold record_applied, enqueueSendData. red_proj. rewrite Hs.
  destruct (buffer sd) as [b|].
  - unfold emit, set_heap. red_proj. split; [exact Hp|]. split; [exact Hp0|].
    eexists. split; [apply lookup_insert_eq|]. red_proj. auto.
  - red_proj. split; [exact Hp|]. split; [exact Hp0|]. eauto.
Qed.

Lemma live_disconnect sn fs hr st sd p fd :
  live_at st (uuid sd) p fd -> method sd = Disconnect ->
  closed_at (dispatchOne sn fs hr st sd) (uuid sd) fd.
Proof.
  intros [Hp [Hp0 [s [Hs [Hu [Hfd Hpos]]]]]] Hm.
  unfold dispatchOne, subscript. rewrite Hp. red_proj.
  replace ((p =? 0)%N) with false by (symmetry; apply N.eqb_neq; exact Hp0).
  rewrite Hs. replace (0 <? socketDescriptor s) with true by (symmetry; apply Z.ltb_lt; lia).
  rewrite Hm. unfold record_applied, closed_at, deleteLater, close, emit. red_proj.
  rewrite !deletePoll_heap. red_proj. rewrite Hs. red_proj.
  rewrite (deletePoll_pollingSockets_live p s) by (red_proj; first [exact Hs | rewrite Hu; eauto]).
  red_proj. split.
  - left. rewrite <- Hu. apply lookup_delete_eq.
  - rewrite Hfd. rewrite <- app_assoc. apply elem_of_app. right. by left.
Qed.

Lemma closed_stays sn fs hr st u fd (l : list TSendData) :
  closed_at st u fd -> Forall (fun sd => uuid sd = u) l ->
  closed_at (fold_left (dispatchOne sn fs hr) l st) u fd.
Proof.
  intros Hc Hl. revert st Hc. induction Hl as [|sd l Hsd Hl IH]; intros st [Hd Hev]; cbn [fold_left].
  - split; assumption.
  - apply IH. rewrite <- Hsd in Hd.
    destruct (dispatchOne_dead_uuid sn fs hr st sd Hd) as [_ [_ [Ht [_ [_ Hp]]]]].
    split; [|rewrite Ht; exact Hev]. right. rewrite Hp, <- Hsd. apply lookup_insert_eq.
Qed.

Lemma live_until_disconnect sn fs hr st u p fd (l : list TSendData) :
  live_at st u p fd ->
  Forall (fun sd => uuid sd = u /\ method sd <> SwitchToWebSocket) l ->
  Exists (fun sd => method sd = Disconnect) l ->
  closed_at (fold_left (dispatchOne sn fs hr) l st) u fd.
Proof.
  intros Hlive Hl Hex. revert st Hlive. induction Hl as [|sd l [Hsd Hsw] Hl IH]; intros st Hlive;
    [inversion Hex|]. cbn [fold_left].
  destruct (method sd) eqn:Hm.
  - apply closed_stays.
    + subst u. apply (live_disconnect sn fs hr st sd p fd); assumption.
    + eapply Forall_impl; [exact Hl|]. intros x [Hx _]. exact Hx.
  - apply IH.
    + inversion Hex as [? ? Hh|? ? Ht]; subst; [congruence|exact Ht].
    + subst u. apply live_send; assumption.
  - contradiction.
Qed.

(** A Close frame received on a live connection ends, once the actions its
    worker enqueued have been dispatched, with the connection removed from
    the registry and its descriptor closed, whatever the endpoint's
    onClose appended before the close directive. *)
Theorem close_frame_unregisters endpointOf frame sn fs hr w ep st p fd :
  endpointOf (requestPath w) = Some ep -> opcode w = OpCode.Close ->
  live_at st (socketUuid_w w) p fd ->
  let st' := fold_left (dispatchOne sn fs hr) (enqueued (run endpointOf frame w)) st in
  (pollingSockets st' !! socketUuid_w w = None \/ pollingSockets st' !! socketUuid_w w = Some 0%N) /\
  EvClose fd ∈ trace st'.
Proof.
  intros Hep Hop Hlive. cbv zeta.
  apply (live_until_disconnect sn fs hr st (socketUuid_w w) p fd); [exact Hlive| |].
  - unfold run. rewrite Hep. destruct (dispatchOpcode w ep) as [[cbs lg] pl].
    pose proof (sendPayload_addressed frame (socketUuid_w w) pl) as Hf.
    destruct (sendPayload frame (socketUuid_w w) pl). exact Hf.
  - unfold run. rewrite Hep. unfold dispatchOpcode. rewrite Hop. cbn -[sendPayload].
    rewrite sendPayload_app. cbn [snd enqueued]. apply Exists_app. right.
    unfold closeWebSocket. cbn. left. reflexivity.
Qed.

Lemma close_frame_unregisters_witness :
  live_at st0 7 1 5 /\
  EvClose 5 ∈ trace (fold_left (dispatchOne sampleSessionName sampleFindSession sampleHandshake)
                 (enqueued (run sampleEndpointOf sampleFrame
                                (frameWorker 7 "/echo" OpCode.Close ""))) st0).
Proof.
  assert (H : live_at st0 7 1 5).
  { unfold live_at. split; [vm_compute; reflexivity|]. split; [discriminate|].
    exists httpSock. split; [vm_compute; reflexivity|]. split; [reflexivity|].
    split; [reflexivity|lia]. }
  split; [exact H|].
  exact (proj2 (close_frame_unregisters sampleEndpointOf sampleFrame sampleSessionName
           sampleFindSession sampleHandshake (frameWorker 7 "/echo" OpCode.Close "")
           echoEndpoint st0 1 5 eq_refl eq_refl H)).
Defined.

(* ------------------------------------------------------------------ *)
(** ** TApplicationServerBase::loadLibraries *)

Lemma fold_loadOne env a :
  fold_left (loadOne env) libs a =
  mkAppState (libLoaded a || existsb (libLoads env) libs) (currentDir a)
    (appSyslog a ++ map (fun lib => if libLoads env lib
                                    then SystemDebug (String.append "Library loaded: " lib)
                                    else SystemError (libErrorString env lib)) libs)
    (loadAttempts a ++ libs) (instantiated a).
Proof.
  unfold libs. cbn [fold_left existsb map]. unfold loadOne, app_log, app_setLoaded, app_attempt.
  destruct (libLoads env "libcontroller.so"%string), (libLoads env "libview.so"%string);
    destruct a as [l c sl la i]; cbn; rewrite <- ?app_assoc; cbn;
    destruct l; reflexivity.
Qed.

(** Without the lib directory (and no library loaded by an earlier call),
    loadLibraries logs "lib directory not found" and returns false before
    touching anything else: no load is attempted, the working directory is
    not changed and no singleton is instantiated. *)
Theorem loadLibraries_no_libdir env a :
  libLoaded a = false -> libDirExists env = false ->
  loadLibraries env a = (false, app_log (SystemError "lib directory not found"%string) a).
Proof. intros Hl Hd. unfold loadLibraries. rewrite Hl, Hd. reflexivity. Qed.


Lemma loadLibraries_no_libdir_witness :
  libLoaded freshApp = false /\
  loadLibraries (sampleEnv false (fun _ => true)) freshApp =
    (false, app_log (SystemError "lib directory not found"%string) freshApp).
Proof.
  split; [reflexivity|].
  exact (loadLibraries_no_libdir (sampleEnv false (fun _ => true)) freshApp eq_refl eq_refl).
Defined.

(** Once a library has been loaded (the static [libLoaded] is set),
    loadLibraries attempts no load and logs nothing, even if the lib
    directory has since disappeared; it switches to the web root,
    instantiates the three singletons and returns true. *)
Theorem loadLibraries_already_loaded env a :
  libLoaded a = true ->
  loadLibraries env a =
    (true, mkAppState true (webRootPath env) (appSyslog a) (loadAttempts a)
             (instantiated a ++ ["TUrlRoute"; "TSqlDatabasePool"; "TKvsDatabasePool"]%string)).
Proof.
  intros Hl. unfold loadLibraries. rewrite Hl.
  destruct a as [l c sl la i]; cbn in Hl; subst l. unfold app_instantiate, app_setCurrent. cbn. by rewrite <- !app_assoc.
Qed.

Lemma loadLibraries_already_loaded_witness :
  libLoaded (mkAppState true "/" [] ["libcontroller.so"%string] []) = true /\
  fst (loadLibraries (sampleEnv false (fun _ => false))
         (mkAppState true "/" [] ["libcontroller.so"%string] [])) = true.
Proof.
  split; [reflexivity|].
  rewrite (loadLibraries_already_loaded (sampleEnv false (fun _ => false))
             (mkAppState true "/" [] ["libcontroller.so"%string] []) eq_refl).
  reflexivity.
Defined.

(** With the lib directory present, loadLibraries attempts every library
    of the list in order, logs one error per failed load, and returns true
    even when every load failed; [libLoaded] becomes true exactly when at
    least one library loaded, and the working directory ends at the web
    root. *)
Theorem loadLibraries_loads_all env a :
  libLoaded a = false -> libDirExists env = true ->
  let '(ok, a') := loadLibraries env a in
  ok = true /\ loadAttempts a' = loadAttempts a ++ libs /\
  libLoaded a' = existsb (libLoads env) libs /\ currentDir a' = webRootPath env /\
  List.filter isError (appSyslog a') =
    List.filter isError (appSyslog a) ++
    map (fun lib => SystemError (libErrorString env lib)) (List.filter (fun lib => negb (libLoads env lib)) libs).
Proof.
  intros Hl Hd. unfold loadLibraries. rewrite Hl, Hd.
  rewrite !fold_loadOne.
  unfold app_log, app_setCurrent, app_instantiate.
  cbn [libLoaded currentDir appSyslog loadAttempts instantiated]. rewrite Hl. cbn [orb].
  do 4 (split; [reflexivity|]). rewrite !List.filter_app. cbn [List.filter isError].
  rewrite app_nil_r. f_equal.
  generalize libs. intros l. induction l as [|lib l IH]; [reflexivity|].
  cbn [map List.filter]. destruct (libLoads env lib); cbn [isError negb]; [exact IH|].
  cbn [map]. f_equal. exact IH.
Qed.

Lemma loadLibraries_loads_all_witness :
  libLoaded freshApp = false /\
  loadLibraries (sampleEnv true (fun _ => false)) freshApp =
    (true, snd (loadLibraries (sampleEnv true (fun _ => false)) freshApp)) /\
  libLoaded (snd (loadLibraries (sampleEnv true (fun _ => false)) freshApp)) = false.
Proof.
  pose proof (loadLibraries_loads_all (sampleEnv true (fun _ => false)) freshApp eq_refl eq_refl) as H.
  destruct (loadLibraries (sampleEnv true (fun _ => false)) freshApp) as [ok a'] eqn:E.
  destruct H as [Hok [_ [Hld _]]]. subst ok.
  split; [reflexivity|]. split; [reflexivity|]. exact Hld.
Defined.

Lemma loadLibraries_loaded_attempts env a :
  libLoaded a = true -> loadAttempts (snd (loadLibraries env a)) = loadAttempts a.
Proof. intros Hl. unfold loadLibraries. rewrite Hl. reflexivity. Qed.

Lemma loadLibraries_dir_attempts env a :
  libLoaded a = false -> libDirExists env = true ->
  loadAttempts (snd (loadLibraries env a)) = loadAttempts a ++ libs /\
  libLoaded (snd (loadLibraries env a)) = existsb (libLoads env) libs.
Proof.
  intros Hl Hd. unfold loadLibraries. rewrite Hl, Hd, fold_loadOne.
  unfold app_log, app_setCurrent, app_instantiate.
  cbn [snd libLoaded loadAttempts]. rewrite Hl. split; reflexivity.
Qed.

(** Because [libLoaded] stays false when no library loaded, a second call
    attempts the whole list again; after a call in which some library
    loaded, the next call attempts nothing. *)
Theorem loadLibraries_retries env a :
  libLoaded a = false -> libDirExists env = true ->
  let a2 := snd (loadLibraries env (snd (loadLibraries env a))) in
  loadAttempts a2 = loadAttempts a ++ libs ++ (if existsb (libLoads env) libs then [] else libs).
Proof.
  intros Hl Hd. cbv zeta.
  destruct (loadLibraries_dir_attempts env a Hl Hd) as [Ha Hld].
  destruct (existsb (libLoads env) libs) eqn:E.
  - rewrite (loadLibraries_loaded_attempts env _ Hld), Ha, app_nil_r. reflexivity.
  - destruct (loadLibraries_dir_attempts env _ Hld Hd) as [Ha2 _].
    rewrite Ha2, Ha, app_assoc. reflexivity.
Qed.

Lemma loadLibraries_retries_witness :
  libLoaded freshApp = false /\
  loadAttempts (snd (loadLibraries (sampleEnv true (fun _ => false))
                       (snd (loadLibraries (sampleEnv true (fun _ => false)) freshApp)))) =
    libs ++ libs.
Proof.
  split; [reflexivity|].
  exact (loadLibraries_retries (sampleEnv true (fun _ => false)) freshApp eq_refl eq_refl).
Defined.
